(** * mcp-ai-server: the JSON-RPC session layer, the tool registry and the
      stdio connection, embedded from the Go sources.

    - protocol types and classification: [src/unnamed/part_004] (package mcp)
    - tool registry: [src/internal/tools/manager.go]
    - stdio server: [src/unnamed/part_005]
    - WebSocket server: [src/unnamed/part_003] (second document, package mcp)
    - stdio connection: [src/internal/mcp/connection.go]

    Go values are modelled as follows.  A [string] is a Go string (bytes).
    An [interface{}] holding what encoding/json decodes is a [value]; a
    [float64] that came out of a JSON number is finite, so it is kept as the
    rational it denotes ([Qc]), which gives Go's [==] on such numbers.  A
    pointer that may be nil is an [option].  Go's [error] is the text of its
    [Error()] method, and a nil error is [None]. *)

From Stdlib Require Import ZArith QArith Qcanon DecimalString.
From stdpp Require Import gmap strings list fin_maps.

#[local] Set Warnings "-register-all,-clear-no-such-hyp".
#[local] Open Scope string_scope.

(** ** Dynamic values *)

(** What an [interface{}] holds after [json.Unmarshal]: nil, bool, float64,
    string, []interface{} or map[string]interface{}. *)
Inductive value : Type :=
  | VNil
  | VBool (b : bool)
  | VFloat64 (x : Qc)
  | VString (s : string)
  | VSlice (l : list value)
  | VMap (m : gmap string value).

(** [map[string]interface{}]: a nil map or a map. *)
Definition GoMap : Type := option (gmap string value).

(** [m[k]] on a possibly nil map. *)
Definition index (m : GoMap) (k : string) : option value :=
  match m with
  | Some m => m !! k
  | None => None
  end.

(** [v.(string)] and [v.(map[string]interface{})] in their two-result form,
    applied to the outcome of [m[k]] (a missing key gives the nil interface,
    on which both assertions fail). *)
Definition assert_string (v : option value) : option string :=
  match v with
  | Some (VString s) => Some s
  | _ => None
  end.

Definition assert_map (v : option value) : option (gmap string value) :=
  match v with
  | Some (VMap m) => Some m
  | _ => None
  end.

Definition error : Type := string.

(** [json.RawMessage]: no bytes at all, or the text of one JSON value, which
    is represented by that value. *)
Definition RawMessage : Type := option value.

(** ** Protocol types (package mcp) *)

Record ClientInfo := mkClientInfo {
  ClientInfo_Name : string;
  ClientInfo_Version : string }.

Record ServerInfo := mkServerInfo {
  ServerInfo_Name : string;
  ServerInfo_Version : string }.

Record InitializeParams := mkInitializeParams {
  InitializeParams_ProtocolVersion : string;
  InitializeParams_Capabilities : GoMap;
  InitializeParams_ClientInfo : option ClientInfo }.

Record InitializeResult := mkInitializeResult {
  InitializeResult_ProtocolVersion : string;
  InitializeResult_Capabilities : GoMap;
  InitializeResult_ServerInfo : option ServerInfo }.

Record Tool := mkTool {
  Name : string;
  Description : string;
  InputSchema : GoMap }.

Record ToolCallParams := mkToolCallParams {
  ToolCallParams_Name : string;
  ToolCallParams_Arguments : GoMap }.

Record Content := mkContent {
  Type_ : string;
  Text : string }.

Record ToolCallResult := mkToolCallResult {
  ToolCallResult_Content : list Content }.

Record ResourceReadParams := mkResourceReadParams {
  URI : string }.

Record ResourceReadResult := mkResourceReadResult {
  Contents : list Content;
  MimeType : string }.

(** The values this program stores in the [interface{}] fields [Result] and
    [Data] of a message: a decoded JSON value (on the receiving side) or one
    of the Go values the servers put there.  Only [Dyn VNil] is the nil
    interface: a nil [*ToolCallResult] stored in an interface is not nil. *)
Inductive any : Type :=
  | Dyn (v : value)
  | OfInitializeResult (r : InitializeResult)
  | OfToolList (tools : list Tool)
      (* map[string]interface{}{"tools": tools} *)
  | OfToolCallResultPtr (p : option ToolCallResult)
  | OfToolCallResult (r : ToolCallResult)
  | OfResourceReadResult (r : ResourceReadResult).

Definition nil : any := Dyn VNil.

Definition is_nil (a : any) : bool :=
  match a with
  | Dyn VNil => true
  | _ => false
  end.

(** [p == nil] on a pointer. *)
Definition nilptr {A : Type} (p : option A) : bool :=
  match p with
  | Some _ => false
  | None => true
  end.

Module Error.
Record t := mk {
  Code : Z;
  Message : string;
  Data : any }.
End Error.

(** The identifier of a message is nil or a decoded JSON value: the servers
    copy the one they decoded, and [StdioClient] only sets strings. *)
Record Message := mkMessage {
  JSONRPC : string;
  ID : value;
  Method : string;
  Params : RawMessage;
  Result : any;
  Error : option Error.t }.

Definition id_nil (v : value) : bool :=
  match v with
  | VNil => true
  | _ => false
  end.

Definition JSONRPCVersion : string := "2.0".
Definition ProtocolVersion : string := "2024-11-05".

Definition ParseErrorCode : Z := (-32700)%Z.
Definition InvalidRequestCode : Z := (-32600)%Z.
Definition MethodNotFoundCode : Z := (-32601)%Z.
Definition InvalidParamsCode : Z := (-32602)%Z.
Definition InternalErrorCode : Z := (-32603)%Z.
Definition ServerErrorCode : Z := (-32000)%Z.

Definition NewResponse (id : value) (result : any) : Message :=
  {| JSONRPC := JSONRPCVersion; ID := id; Method := ""; Params := None;
     Result := result; Error := None |}.

Definition NewErrorResponse (id : value) (code : Z) (message : string)
    (data : any) : Message :=
  {| JSONRPC := JSONRPCVersion; ID := id; Method := ""; Params := None;
     Result := nil;
     Error := Some {| Error.Code := code; Error.Message := message;
                      Error.Data := data |} |}.

Definition Validate (m : Message) : option error :=
  if bool_decide (JSONRPC m ≠ JSONRPCVersion) then
    Some ("invalid JSON-RPC version: " ++ JSONRPC m)
  else if bool_decide (Method m = "") && is_nil (Result m) && nilptr (Error m)
  then Some "message must have method, result, or error"
  else None.

Definition IsRequest (m : Message) : bool :=
  bool_decide (Method m ≠ "") && negb (id_nil (ID m)).

Definition IsResponse (m : Message) : bool :=
  (negb (is_nil (Result m)) || negb (nilptr (Error m))) && negb (id_nil (ID m)).

Definition IsNotification (m : Message) : bool :=
  bool_decide (Method m ≠ "") && id_nil (ID m).

(** *** Shapes used to state the classification results *)

Definition exactly_one (a b c : bool) : bool :=
  match a, b, c with
  | true, false, false | false, true, false | false, false, true => true
  | _, _, _ => false
  end.

(** A message that carries a method and an id together with a result or an
    error. *)
Definition mixed (m : Message) : bool :=
  bool_decide (Method m ≠ "") && negb (id_nil (ID m))
  && (negb (is_nil (Result m)) || negb (nilptr (Error m))).

(** A message without method and without id. *)
Definition anonymous (m : Message) : bool :=
  bool_decide (Method m = "") && id_nil (ID m).

(** ** Library functions the servers call

    [json.Unmarshal] into the parameter types of the handlers and the [%v]
    rendering of [fmt] are functions of the Go standard library, not of this
    repository; the handlers are defined over any behaviour of them.  An
    [inl] is a non-nil error; on [inr] the decoded value is what the target
    variable holds afterwards. *)
Class GoLib := {
  UnmarshalInitializeParams : RawMessage → error + InitializeParams;
  UnmarshalToolCallParams : RawMessage → error + ToolCallParams;
  UnmarshalResourceReadParams : RawMessage → error + ResourceReadParams;
  UnmarshalMap : RawMessage → error + GoMap;
  FormatMap : GoMap → string }.

(** ** io.Writer

    A writer accepts or refuses each [Write]; [outcomes] lists what the next
    calls will return ([None]: accepted), and an exhausted list accepts.
    [written] records the messages whose JSON line was accepted. *)
Record Writer := mkWriter {
  outcomes : list (option error);
  written : list Message }.

Definition Write (msg : Message) (w : Writer) : option error * Writer :=
  match outcomes w with
  | Some err :: rest => (Some err, mkWriter rest (written w))
  | None :: rest => (None, mkWriter rest (written w ++ [msg]))
  | [] => (None, mkWriter [] (written w ++ [msg]))
  end.

(** ** BaseServer (src/unnamed/part_005) *)

(** The [ToolExecutor] interface of package mcp: [ExecuteTool] returns a
    [*ToolCallResult] and an [error].  What an executor answers is taken to
    depend on the name and the arguments only; the context is not used by the
    handlers. *)
Definition ToolExecutor : Type :=
  string → GoMap → option ToolCallResult * option error.

(** The [resourceHandlers] map is never read by a request handler and is left
    out, as is the mutex. *)
Record BaseServer := mkBaseServer {
  tools : gmap string Tool;
  toolExecutor : option ToolExecutor;
  initialized : bool;
  clientInfo : option ClientInfo;
  capabilities : GoMap }.

Definition set_initialized (b : bool) (s : BaseServer) : BaseServer :=
  mkBaseServer (tools s) (toolExecutor s) b (clientInfo s) (capabilities s).

Definition set_clientInfo (c : option ClientInfo) (s : BaseServer) : BaseServer :=
  mkBaseServer (tools s) (toolExecutor s) (initialized s) c (capabilities s).

Module BaseServer.

Definition NewBaseServer : BaseServer :=
  {| tools := ∅; toolExecutor := None; initialized := false;
     clientInfo := None; capabilities := Some ∅ |}.

Definition RegisterTool (tool : Tool) (s : BaseServer)
    : option error * BaseServer :=
  if bool_decide (Name tool = "") then
    (Some "tool name cannot be empty", s)
  else
    (None, mkBaseServer (<[Name tool := tool]> (tools s)) (toolExecutor s)
             (initialized s) (clientInfo s) (capabilities s)).

Definition GetTool (name : string) (s : BaseServer) : option Tool :=
  tools s !! name.

(** Go ranges over the map in an unspecified order; the list below is one
    such order. *)
Definition GetTools (s : BaseServer) : list Tool :=
  (map_to_list (tools s)).*2.

Definition SetCapabilities (c : GoMap) (s : BaseServer) : BaseServer :=
  mkBaseServer (tools s) (toolExecutor s) (initialized s) (clientInfo s) c.

Definition SetToolExecutor (executor : ToolExecutor) (s : BaseServer)
    : BaseServer :=
  mkBaseServer (tools s) (Some executor) (initialized s) (clientInfo s)
    (capabilities s).

Definition GetCapabilities (s : BaseServer) : GoMap := capabilities s.

End BaseServer.

(** ** Tool registry (src/internal/tools/manager.go) *)

(** The five provider groups, in the order [NewToolManager] registers them. *)
Inductive Group : Type :=
  | systemTools | networkTools | dataTools | databaseTools | aiTools.

#[global] Instance Group_eq_dec : EqDecision Group.
Proof. solve_decision. Defined.

Definition rank (g : Group) : nat :=
  match g with
  | systemTools => 0
  | networkTools => 1
  | dataTools => 2
  | databaseTools => 3
  | aiTools => 4
  end.

(** The [ToolExecutor] interface of package tools: what a provider group
    offers. *)
Module Provider.
Record t := mk {
  GetTools : list Tool;
  ExecuteTool : ToolExecutor }.
End Provider.

(** The groups are built from the configuration before the map is filled; the
    model starts from the built groups ([group] stands for the five fields
    [systemTools] ... [aiTools]).  [toolMap] binds a name to the group whose
    pointer the Go map holds. *)
Record ToolManager := mkToolManager {
  toolMap : gmap string Group;
  group : Group → Provider.t }.

Module ToolManager.

(** [for _, tool := range p.GetTools() { toolMap[tool.Name] = p }] *)
Definition register (g : Group) (ts : list Tool) (m : gmap string Group)
    : gmap string Group :=
  foldl (λ m tool, <[Name tool := g]> m) m ts.

Definition NewToolManager (groups : Group → Provider.t) : ToolManager :=
  let toolMap := ∅ in
  let toolMap :=
    register systemTools (Provider.GetTools (groups systemTools)) toolMap in
  let toolMap :=
    register networkTools (Provider.GetTools (groups networkTools)) toolMap in
  let toolMap :=
    register dataTools (Provider.GetTools (groups dataTools)) toolMap in
  let toolMap :=
    register databaseTools (Provider.GetTools (groups databaseTools)) toolMap in
  let toolMap :=
    register aiTools (Provider.GetTools (groups aiTools)) toolMap in
  {| toolMap := toolMap; group := groups |}.

Definition GetTools (tm : ToolManager) : list Tool :=
  Provider.GetTools (group tm systemTools)
  ++ Provider.GetTools (group tm networkTools)
  ++ Provider.GetTools (group tm dataTools)
  ++ Provider.GetTools (group tm databaseTools)
  ++ Provider.GetTools (group tm aiTools).

Definition ExecuteTool (tm : ToolManager) : ToolExecutor :=
  λ name arguments,
    match toolMap tm !! name with
    | None => (None, Some ("工具未找到: " ++ name))
    | Some g => Provider.ExecuteTool (group tm g) name arguments
    end.

(** A group declares a name when one of the tools it lists carries it. *)
Definition declares (groups : Group → Provider.t) (g : Group) (x : string)
    : Prop :=
  x ∈ Name <$> Provider.GetTools (groups g).

#[global] Instance declares_dec groups g x : Decision (declares groups g x).
Proof. unfold declares. apply _. Defined.

End ToolManager.

(** ** StdioServer (src/unnamed/part_005)

    [reader] feeds [handleMessages], which decodes one message at a time and
    passes it to [handleMessage]; the model starts at [handleMessage].
    [stopSpawned] records that [handleShutdown] has executed [go s.Stop()],
    [cancelled] that [s.cancel()] has run. *)
Record StdioServer := mkStdioServer {
  base : BaseServer;
  writer : Writer;
  stopSpawned : bool;
  cancelled : bool }.

Definition with_base (f : BaseServer → BaseServer) (s : StdioServer)
    : StdioServer :=
  mkStdioServer (f (base s)) (writer s) (stopSpawned s) (cancelled s).

Module StdioServer.
Section handlers.
Context {golib : GoLib}.

Definition NewStdioServer (writer : Writer) : StdioServer :=
  {| base := BaseServer.NewBaseServer; writer := writer;
     stopSpawned := false; cancelled := false |}.

Definition SetToolExecutor (executor : ToolExecutor) (s : StdioServer)
    : StdioServer :=
  with_base (BaseServer.SetToolExecutor executor) s.

Definition RegisterTool (tool : Tool) (s : StdioServer)
    : option error * StdioServer :=
  let '(err, b) := BaseServer.RegisterTool tool (base s) in
  (err, with_base (λ _, b) s).

(** [Start] also launches [handleMessages]. *)
Definition Start (s : StdioServer) : option error * StdioServer :=
  (None,
   with_base (BaseServer.SetCapabilities (Some {[
     "tools" := VMap {[ "listChanged" := VBool true ]};
     "resources" := VMap {[ "listChanged" := VBool true ]} ]})) s).

Definition Stop (s : StdioServer) : option error * StdioServer :=
  (None, mkStdioServer (base s) (writer s) (stopSpawned s) true).

(** [json.Marshal] does not fail on the messages of this model. *)
Definition sendMessage (msg : Message) (s : StdioServer)
    : option error * StdioServer :=
  let '(err, w) := Write msg (writer s) in
  let s := mkStdioServer (base s) w (stopSpawned s) (cancelled s) in
  match err with
  | Some err => (Some ("发送消息失败: " ++ err), s)
  | None => (None, s)
  end.

Definition sendResponse (id : value) (result : any) (s : StdioServer)
    : option error * StdioServer :=
  let response := NewResponse id result in
  sendMessage response s.

Definition sendError (id : value) (code : Z) (message : string) (data : any)
    (s : StdioServer) : option error * StdioServer :=
  let response := NewErrorResponse id code message data in
  sendMessage response s.

Definition handleInitialize (msg : Message) (s : StdioServer)
    : option error * StdioServer :=
  if initialized (base s) then
    sendError (ID msg) InvalidRequestCode "already initialized" nil s
  else
    match UnmarshalInitializeParams (Params msg) with
    | inl _ =>
        sendError (ID msg) InvalidParamsCode "invalid initialize params" nil s
    | inr params =>
        let s := with_base (set_clientInfo (InitializeParams_ClientInfo params)) s in
        let s := with_base (set_initialized true) s in
        let result :=
          {| InitializeResult_ProtocolVersion := ProtocolVersion;
             InitializeResult_Capabilities :=
               BaseServer.GetCapabilities (base s);
             InitializeResult_ServerInfo :=
               Some {| ServerInfo_Name := "mcp-ai-server";
                       ServerInfo_Version := "1.0.0" |} |} in
        sendResponse (ID msg) (OfInitializeResult result) s
    end.

Definition handleToolsList (msg : Message) (s : StdioServer)
    : option error * StdioServer :=
  if negb (initialized (base s)) then
    sendError (ID msg) InvalidRequestCode "not initialized" nil s
  else
    let tools := BaseServer.GetTools (base s) in
    sendResponse (ID msg) (OfToolList tools) s.

Definition handleToolCall (msg : Message) (s : StdioServer)
    : option error * StdioServer :=
  if negb (initialized (base s)) then
    sendError (ID msg) InvalidRequestCode "not initialized" nil s
  else
    match UnmarshalToolCallParams (Params msg) with
    | inl _ =>
        sendError (ID msg) InvalidParamsCode "invalid tool call params" nil s
    | inr params =>
        match BaseServer.GetTool (ToolCallParams_Name params) (base s) with
        | None =>
            sendError (ID msg) MethodNotFoundCode
              ("tool not found: " ++ ToolCallParams_Name params) nil s
        | Some tool =>
            match toolExecutor (base s) with
            | Some executor =>
                let '(result, err) :=
                  executor (ToolCallParams_Name params)
                    (ToolCallParams_Arguments params) in
                match err with
                | Some err =>
                    sendError (ID msg) InternalErrorCode
                      ("工具执行失败: " ++ err) nil s
                | None => sendResponse (ID msg) (OfToolCallResultPtr result) s
                end
            | None =>
                let result :=
                  {| ToolCallResult_Content :=
                       [ {| Type_ := "text";
                            Text := "工具 " ++ Name tool ++ " 被调用，参数: "
                                    ++ FormatMap (ToolCallParams_Arguments params) |} ] |} in
                sendResponse (ID msg) (OfToolCallResult result) s
            end
        end
    end.

Definition handleResourceRead (msg : Message) (s : StdioServer)
    : option error * StdioServer :=
  if negb (initialized (base s)) then
    sendError (ID msg) InvalidRequestCode "not initialized" nil s
  else
    match UnmarshalResourceReadParams (Params msg) with
    | inl _ =>
        sendError (ID msg) InvalidParamsCode "invalid resource read params" nil s
    | inr params =>
        let result :=
          {| Contents := [ {| Type_ := "text";
                              Text := "读取资源: " ++ URI params |} ];
             MimeType := "text/plain" |} in
        sendResponse (ID msg) (OfResourceReadResult result) s
    end.

Definition handleShutdown (msg : Message) (s : StdioServer)
    : option error * StdioServer :=
  match sendResponse (ID msg) nil s with
  | (Some err, s) => (Some err, s)
  | (None, s) =>
      (* go s.Stop() *)
      (None, mkStdioServer (base s) (writer s) true (cancelled s))
  end.

Definition handleNotification (msg : Message) (s : StdioServer)
    : option error * StdioServer :=
  (None, s).

Definition handleRequest (msg : Message) (s : StdioServer)
    : option error * StdioServer :=
  if String.eqb (Method msg) "initialize" then handleInitialize msg s
  else if String.eqb (Method msg) "tools/list" then handleToolsList msg s
  else if String.eqb (Method msg) "tools/call" then handleToolCall msg s
  else if String.eqb (Method msg) "resources/read" then handleResourceRead msg s
  else if String.eqb (Method msg) "shutdown" then handleShutdown msg s
  else sendError (ID msg) MethodNotFoundCode
         ("method not found: " ++ Method msg) nil s.

Definition handleMessage (msg : Message) (s : StdioServer)
    : option error * StdioServer :=
  match Validate msg with
  | Some err => sendError (ID msg) ParseErrorCode err nil s
  | None =>
      if IsRequest msg then handleRequest msg s
      else if IsResponse msg then (None, s)
      else if IsNotification msg then handleNotification msg s
      else sendError (ID msg) InvalidRequestCode "invalid message" nil s
  end.

End handlers.
End StdioServer.

(** ** WebSocketServer (src/unnamed/part_003)

    The handlers only touch the embedded [BaseServer]; the listener, the
    upgrader and the connection set are plumbing around [handleMessage].  A
    handler returns its pair of a message pointer and an error, and the server
    it leaves. *)
Module WebSocketServer.
Section handlers.
Context {golib : GoLib}.

Definition reply : Type := (option Message * option error) * BaseServer.

(** [&Message{JSONRPC: "2.0", ID: id, Error: &Error{...}}] and
    [&Message{JSONRPC: "2.0", ID: id, Result: result}]: the fields not named
    in the literal are zero. *)
Definition errorMessage (id : value) (code : Z) (message : string)
    (data : any) : Message :=
  {| JSONRPC := "2.0"; ID := id; Method := ""; Params := None; Result := nil;
     Error := Some {| Error.Code := code; Error.Message := message;
                      Error.Data := data |} |}.

Definition resultMessage (id : value) (result : any) : Message :=
  {| JSONRPC := "2.0"; ID := id; Method := ""; Params := None;
     Result := result; Error := None |}.

Definition handleInitialize (msg : Message) (s : BaseServer) : reply :=
  if initialized s then
    (Some (errorMessage (ID msg) (-32000) "Already initialized" nil), None, s)
  else
    let s :=
      match UnmarshalMap (Params msg) with
      | inr params =>
          match assert_map (index params "clientInfo") with
          | Some clientInfo =>
              match assert_string (clientInfo !! "name") with
              | Some name =>
                  set_clientInfo
                    (Some {| ClientInfo_Name := name;
                             ClientInfo_Version := "" |}) s
              | None => s
              end
          | None => s
          end
      | inl _ => s
      end in
    let s := set_initialized true s in
    (Some (resultMessage (ID msg) (Dyn (VMap {[
       "protocolVersion" := VString "2024-11-05";
       "capabilities" := VMap {[ "tools" := VMap ∅ ]};
       "serverInfo" := VMap {[ "name" := VString "mcp-ai-websocket";
                               "version" := VString "1.0.0" ]} ]}))),
     None, s).

Definition handleToolsList (msg : Message) (s : BaseServer) : reply :=
  if negb (initialized s) then
    (Some (errorMessage (ID msg) (-32002) "Not initialized" nil), None, s)
  else
    let tools := (map_to_list (tools s)).*2 in
    (Some (resultMessage (ID msg) (OfToolList tools)), None, s).

Definition handleToolCall (msg : Message) (s : BaseServer) : reply :=
  if negb (initialized s) then
    (Some (errorMessage (ID msg) (-32002) "Not initialized" nil), None, s)
  else
    match toolExecutor s with
    | None =>
        (Some (errorMessage (ID msg) (-32603) "Tool executor not available" nil),
         None, s)
    | Some executor =>
        match UnmarshalMap (Params msg) with
        | inl _ =>
            (Some (errorMessage (ID msg) (-32602) "Invalid params" nil), None, s)
        | inr params =>
            match assert_string (index params "name") with
            | None =>
                (Some (errorMessage (ID msg) (-32602) "Tool name is required" nil),
                 None, s)
            | Some toolName =>
                let arguments := assert_map (index params "arguments") in
                let '(result, err) := executor toolName arguments in
                match err with
                | Some err =>
                    (Some (errorMessage (ID msg) (-32603)
                             "Tool execution failed" (Dyn (VString err))),
                     None, s)
                | None =>
                    (Some (resultMessage (ID msg) (OfToolCallResultPtr result)),
                     None, s)
                end
            end
        end
    end.

Definition handleResourceRead (msg : Message) (s : BaseServer) : reply :=
  if negb (initialized s) then
    (Some (errorMessage (ID msg) (-32002) "Not initialized" nil), None, s)
  else
    (Some (errorMessage (ID msg) (-32601) "Resource reading not implemented" nil),
     None, s).

Definition handleShutdown (msg : Message) (s : BaseServer) : reply :=
  let s := set_initialized false s in
  (Some (resultMessage (ID msg) nil), None, s).

(** The frame [message] is given by what [json.Unmarshal(message, &msg)]
    makes of it. *)
Definition handleMessage (message : error + Message) (s : BaseServer) : reply :=
  match message with
  | inl err => (None, Some ("解析消息失败: " ++ err), s)
  | inr msg =>
      if String.eqb (Method msg) "initialize" then handleInitialize msg s
      else if String.eqb (Method msg) "tools/list" then handleToolsList msg s
      else if String.eqb (Method msg) "tools/call" then handleToolCall msg s
      else if String.eqb (Method msg) "resources/read" then handleResourceRead msg s
      else if String.eqb (Method msg) "shutdown" then handleShutdown msg s
      else
        (Some (errorMessage (ID msg) (-32601) "Method not found"
                 (Dyn (VString ("Unknown method: " ++ Method msg)))),
         None, s)
  end.

End handlers.
End WebSocketServer.

(** ** Server construction (src/cmd/server/main.go) *)

Definition registerAll (ts : list Tool) (b : BaseServer) : option error * BaseServer :=
  foldl (λ acc tool,
           match acc with
           | (Some err, b) => (Some err, b)
           | (None, b) =>
               match BaseServer.RegisterTool tool b with
               | (Some err, b) => (Some ("注册工具失败: " ++ err), b)
               | (None, b) => (None, b)
               end
           end) (None, b) ts.

Definition createStdioServer (w : Writer) (toolManager : ToolManager)
    : error + StdioServer :=
  let stdioServer := StdioServer.NewStdioServer w in
  match registerAll (ToolManager.GetTools toolManager) (base stdioServer) with
  | (Some err, _) => inl err
  | (None, b) =>
      inr (StdioServer.SetToolExecutor (ToolManager.ExecuteTool toolManager)
             (with_base (λ _, b) stdioServer))
  end.

Definition createWebSocketServer (toolManager : ToolManager)
    : error + BaseServer :=
  let websocketServer := BaseServer.NewBaseServer in
  match registerAll (ToolManager.GetTools toolManager) websocketServer with
  | (Some err, _) => inl err
  | (None, b) =>
      inr (BaseServer.SetToolExecutor (ToolManager.ExecuteTool toolManager) b)
  end.

(** ** stdioConnection (src/internal/mcp/connection.go) *)

(** The table [responses] is a [map[interface{}]*Message].  Its keys are the
    hashable dynamic values; using a slice or a map as a key panics. *)
Inductive Key : Type :=
  | KNil
  | KBool (b : bool)
  | KFloat64 (x : Qc)
  | KString (s : string).

#[global] Instance Key_eq_dec : EqDecision Key.
Proof. solve_decision. Defined.

#[global] Instance Key_countable : Countable Key.
Proof.
  refine (inj_countable'
    (λ k, match k with
          | KNil => inl ()
          | KBool b => inr (inl b)
          | KFloat64 x => inr (inr (inl x))
          | KString s => inr (inr (inr s))
          end)
    (λ x, match x with
          | inl _ => KNil
          | inr (inl b) => KBool b
          | inr (inr (inl x)) => KFloat64 x
          | inr (inr (inr s)) => KString s
          end) _).
  by intros [].
Defined.

Definition hashKey (v : value) : option Key :=
  match v with
  | VNil => Some KNil
  | VBool b => Some (KBool b)
  | VFloat64 x => Some (KFloat64 x)
  | VString s => Some (KString s)
  | VSlice _ | VMap _ => None
  end.

(** A call returns, or the goroutine panics (which ends the process). *)
Inductive outcome (A : Type) : Type :=
  | Done (a : A)
  | Panic (reason : string).
Arguments Done {A} a.
Arguments Panic {A} reason.

#[global] Instance outcome_bind : MBind outcome :=
  λ A B f x, match x with
             | Done a => f a
             | Panic reason => Panic reason
             end.

Definition unhashable {A : Type} : outcome A :=
  Panic "runtime error: hash of unhashable type".

Module stdioConnection.

(** [reader], [scanner] and [responseCh] carry the incoming lines from
    [readLoop] to [responseLoop], which passes each message it receives to
    [handleResponse]; an execution is described by the calls that reach the
    connection.  [stopCh] is [true] once the channel is closed.  An entry
    [Some None] of [responses] is a key bound to a nil pointer. *)
Record t := mk {
  writer : Writer;
  running : bool;
  responses : gmap Key (option Message);
  stopCh : bool }.

Definition set_responses (r : gmap Key (option Message)) (c : t) : t :=
  mk (writer c) (running c) r (stopCh c).

Definition newStdioConnection (writer : Writer) : t :=
  {| writer := writer; running := false; responses := ∅; stopCh := false |}.

Definition Start (c : t) : option error * t :=
  if running c then (Some "连接已在运行", c)
  else (None, mk (writer c) true (responses c) (stopCh c)).

Definition Stop (c : t) : outcome (option error * t) :=
  if negb (running c) then Done (None, c)
  else
    let c := mk (writer c) false (responses c) (stopCh c) in
    if stopCh c then Panic "close of closed channel"
    else Done (None, mk (writer c) (running c) (responses c) true).

Definition IsRunning (c : t) : bool := running c.

Definition SendMessage (msg : Message) (c : t) : outcome (option error * t) :=
  if negb (IsRunning c) then Done (Some "连接未运行", c)
  else
    let '(err, w) := Write msg (writer c) in
    let c := mk w (running c) (responses c) (stopCh c) in
    match err with
    | Some err => Done (Some ("发送消息失败: " ++ err), c)
    | None =>
        if IsRequest msg then
          match hashKey (ID msg) with
          | None => unhashable
          | Some k => Done (None, set_responses (<[k := None]> (responses c)) c)
          end
        else Done (None, c)
    end.

Definition handleResponse (msg : Message) (c : t) : outcome t :=
  if IsResponse msg then
    match hashKey (ID msg) with
    | None => unhashable
    | Some k =>
        match responses c !! k with
        | Some _ => Done (set_responses (<[k := Some msg]> (responses c)) c)
        | None => Done c
        end
    end
  else Done c.

(** [delete(c.responses, id)] under the write lock, as [WaitForResponse]
    does once it has found a response. *)
Definition cleanup (id : value) (c : t) : outcome t :=
  match hashKey id with
  | None => unhashable
  | Some k => Done (set_responses (delete k (responses c)) c)
  end.

(** What other goroutines do to the connection while a caller waits. *)
Inductive call : Type :=
  | CallStart
  | CallStop
  | CallSendMessage (msg : Message)
  | CallHandleResponse (msg : Message)
  | CallCleanup (id : value).

Definition step (cl : call) (c : t) : outcome t :=
  match cl with
  | CallStart => Done (Start c).2
  | CallStop => r ← Stop c; Done r.2
  | CallSendMessage msg => r ← SendMessage msg c; Done r.2
  | CallHandleResponse msg => handleResponse msg c
  | CallCleanup id => cleanup id c
  end.

Fixpoint run (calls : list call) (c : t) : outcome t :=
  match calls with
  | [] => Done c
  | cl :: calls => c ← step cl c; run calls c
  end.

(** One iteration of the polling loop whose guard
    [time.Since(start) < timeout] held: the calls of other goroutines
    between the read lock and the write lock when the poll finds a
    response, and those during [time.Sleep] when it does not. *)
Record slot := mkSlot {
  before_cleanup : list call;
  during_sleep : list call }.

(** [sched] has one slot per iteration; the loop is left with [nil] when
    the guard fails, that is when [sched] is used up. *)
Fixpoint WaitForResponse (id : value) (sched : list slot) (c : t)
    : outcome (option Message * t) :=
  match sched with
  | [] => Done (None, c)
  | sl :: sched =>
      match hashKey id with
      | None => unhashable
      | Some k =>
          match responses c !! k with
          | Some (Some response) =>
              c ← run (before_cleanup sl) c;
              c ← cleanup id c;
              Done (Some response, c)
          | _ =>
              c ← run (during_sleep sl) c;
              WaitForResponse id sched c
          end
      end
  end.

(** All the calls of other goroutines during a wait. *)
Definition calls_of (sched : list slot) : list call :=
  concat ((λ sl, before_cleanup sl ++ during_sleep sl)%list <$> sched).

(** The keys for which some [SendMessage] of the execution registered an
    entry: those of the requests it was called with. *)
Definition registered (calls : list call) (k : Key) : Prop :=
  ∃ msg, CallSendMessage msg ∈ calls ∧ IsRequest msg = true
         ∧ hashKey (ID msg) = Some k.

(** No call of the list hands [handleResponse] a response for key [k]. *)
Definition no_response_for (k : Key) (calls : list call) : Prop :=
  ∀ msg, CallHandleResponse msg ∈ calls → IsResponse msg = true →
         hashKey (ID msg) ≠ Some k.

(** The table holds no response under [k]: no entry, or a nil one. *)
Definition awaiting (k : Key) (c : t) : Prop :=
  responses c !! k = None ∨ responses c !! k = Some None.

End stdioConnection.

(** [Write] accepts the next line. *)
Definition accepts (w : Writer) : bool :=
  match outcomes w with
  | Some _ :: _ => false
  | _ => true
  end.

(** What a stdio handler returns when all it does is send [r] to a writer
    that was in state [w]: with the line accepted, no error and [r] appended
    to the output; with the line refused, an error and nothing appended. *)
Definition answers (r : Message) (w : Writer)
    (res : option error * StdioServer) : Prop :=
  (accepts w = true → res.1 = None ∧ written (writer res.2) = (written w ++ [r])%list)
  ∧ (accepts w = false → res.1 ≠ None ∧ written (writer res.2) = written w).

(** ** A decoder to run the handlers on concrete messages

    An instance of [GoLib] for objects whose keys are spelled as the struct
    tags: a missing key or a null leaves the field zero, a value of another
    JSON type than the field's is an error, as is a top-level value that is
    neither an object nor null, or an empty input.  [FormatMap] elides the
    entries of a non-empty map. *)
Module Reference.

Definition typeError : error := "json: cannot unmarshal value into Go struct field".
Definition endOfInput : error := "unexpected end of JSON input".

Definition field_string (o : gmap string value) (k : string) : error + string :=
  match o !! k with
  | None | Some VNil => inr ""
  | Some (VString s) => inr s
  | Some _ => inl typeError
  end.

Definition field_map (o : gmap string value) (k : string) : error + GoMap :=
  match o !! k with
  | None | Some VNil => inr None
  | Some (VMap m) => inr (Some m)
  | Some _ => inl typeError
  end.

Definition field_clientInfo (o : gmap string value) (k : string)
    : error + option ClientInfo :=
  match o !! k with
  | None | Some VNil => inr None
  | Some (VMap c) =>
      match field_string c "name", field_string c "version" with
      | inr name, inr version => inr (Some (mkClientInfo name version))
      | inl err, _ | _, inl err => inl err
      end
  | Some _ => inl typeError
  end.

Definition object {A : Type} (zero : A) (fields : gmap string value → error + A)
    (raw : RawMessage) : error + A :=
  match raw with
  | None => inl endOfInput
  | Some VNil => inr zero
  | Some (VMap o) => fields o
  | Some _ => inl typeError
  end.

Definition initializeParams : RawMessage → error + InitializeParams :=
  object (mkInitializeParams "" None None)
    (λ o, match field_string o "protocolVersion",
                field_map o "capabilities",
                field_clientInfo o "clientInfo" with
          | inr v, inr c, inr i => inr (mkInitializeParams v c i)
          | inl err, _, _ | _, inl err, _ | _, _, inl err => inl err
          end).

Definition toolCallParams : RawMessage → error + ToolCallParams :=
  object (mkToolCallParams "" None)
    (λ o, match field_string o "name", field_map o "arguments" with
          | inr n, inr a => inr (mkToolCallParams n a)
          | inl err, _ | _, inl err => inl err
          end).

Definition resourceReadParams : RawMessage → error + ResourceReadParams :=
  object (mkResourceReadParams "")
    (λ o, match field_string o "uri" with
          | inr u => inr (mkResourceReadParams u)
          | inl err => inl err
          end).

Definition paramsMap : RawMessage → error + GoMap :=
  object None (λ o, inr (Some o)).

Definition formatMap (m : GoMap) : string :=
  match m with
  | None => "map[]"
  | Some m => if bool_decide (map_to_list m = []) then "map[]" else "map[...]"
  end.

Definition lib : GoLib :=
  {| UnmarshalInitializeParams := initializeParams;
     UnmarshalToolCallParams := toolCallParams;
     UnmarshalResourceReadParams := resourceReadParams;
     UnmarshalMap := paramsMap;
     FormatMap := formatMap |}.

End Reference.

(** ** Concrete servers, messages and executions *)
Module Examples.

Definition tool (name : string) : Tool :=
  {| Name := name; Description := ""; InputSchema := None |}.

Definition answer (text : string) : ToolExecutor :=
  λ _ _, (Some {| ToolCallResult_Content := [ mkContent "text" text ] |}, None).

(** Five groups; [hash] is declared by the system and by the data group. *)
Definition groups (g : Group) : Provider.t :=
  match g with
  | systemTools => Provider.mk [tool "file_read"; tool "hash"] (answer "system")
  | networkTools => Provider.mk [tool "http_get"] (answer "network")
  | dataTools => Provider.mk [tool "hash"; tool "json_parse"] (answer "data")
  | databaseTools => Provider.mk [tool "db_query"] (answer "database")
  | aiTools => Provider.mk [tool "ai_chat"] (answer "ai")
  end.

Definition manager : ToolManager := ToolManager.NewToolManager groups.

Definition stdout : Writer := mkWriter [] [].

Definition request (id method : string) (params : RawMessage) : Message :=
  {| JSONRPC := "2.0"; ID := VString id; Method := method; Params := params;
     Result := nil; Error := None |}.

Definition initialize : Message :=
  request "init-1" "initialize"
    (Some (VMap {[ "protocolVersion" := VString "2024-11-05";
                   "capabilities" := VMap ∅;
                   "clientInfo" := VMap {[ "name" := VString "t";
                                           "version" := VString "1.0" ]} ]})).

Definition toolsList : Message := request "tools-1" "tools/list" None.

Definition callUnknown : Message :=
  request "call-1" "tools/call"
    (Some (VMap {[ "name" := VString "nonexistent_tool";
                   "arguments" := VMap ∅ ]})).


Definition shutdown : Message := request "shutdown-1" "shutdown" None.

(** The servers [main] builds from [manager] and starts, before and after a
    first [initialize]. *)
Definition stdio0 : StdioServer :=
  match createStdioServer stdout manager with
  | inr s => (StdioServer.Start s).2
  | inl _ => StdioServer.NewStdioServer stdout
  end.

Definition stdio1 : StdioServer :=
  (StdioServer.handleMessage (golib := Reference.lib) initialize stdio0).2.

Definition ws0 : BaseServer :=
  match createWebSocketServer manager with
  | inr s => s
  | inl _ => BaseServer.NewBaseServer
  end.

Definition ws1 : BaseServer :=
  (WebSocketServer.handleMessage (golib := Reference.lib) (inr initialize) ws0).2.

(** A message that is a request and a response at once, and one that
    passes [Validate] with no id. *)
Definition requestWithResult : Message :=
  {| JSONRPC := "2.0"; ID := VString "1"; Method := "tools/list";
     Params := None; Result := Dyn (VString "done"); Error := None |}.

Definition resultWithoutId : Message :=
  {| JSONRPC := "2.0"; ID := VNil; Method := ""; Params := None;
     Result := Dyn (VString "done"); Error := None |}.

(** A connection that has sent [toolsList], and the response to it. *)
Definition conn0 : stdioConnection.t :=
  match stdioConnection.run
          [stdioConnection.CallStart; stdioConnection.CallSendMessage toolsList]
          (stdioConnection.newStdioConnection stdout) with
  | Done c => c
  | Panic _ => stdioConnection.newStdioConnection stdout
  end.

Definition lateResponse : Message :=
  NewResponse (VString "tools-1") (OfToolList []).

(** [conn0] once the response loop has handled [lateResponse]. *)
Definition conn1 : stdioConnection.t :=
  match stdioConnection.handleResponse lateResponse conn0 with
  | Done c => c
  | Panic _ => conn0
  end.

Definition idle : stdioConnection.slot := stdioConnection.mkSlot [] [].

End Examples.

(** ** Further functions of the cited files *)

(** *** Requests and notifications (src/unnamed/part_004)

    [json.Marshal(params)] is a library function over the Go value passed as
    [params]; its error is dropped by the constructors, which then store the
    nil bytes it returns with an error. *)
Section constructors.
Context {P : Type} (Marshal : P → error + RawMessage).

Definition paramsBytes (params : P) : RawMessage :=
  match Marshal params with
  | inr bytes => bytes
  | inl _ => None
  end.

Definition NewRequest (id : value) (method : string) (params : P) : Message :=
  {| JSONRPC := JSONRPCVersion; ID := id; Method := method;
     Params := paramsBytes params; Result := nil; Error := None |}.

Definition NewNotification (method : string) (params : P) : Message :=
  {| JSONRPC := JSONRPCVersion; ID := VNil; Method := method;
     Params := paramsBytes params; Result := nil; Error := None |}.

End constructors.

(** *** ToolManager.GetTool (src/internal/tools/manager.go) *)
Module Manager.

(** The loop of [GetTool] over [allTools]: the first tool with the name. *)
Fixpoint firstNamed (name : string) (allTools : list Tool) : option Tool :=
  match allTools with
  | [] => None
  | tool :: allTools =>
      if bool_decide (Name tool = name) then Some tool
      else firstNamed name allTools
  end.

(** [None] is the pair of the zero [Tool] and [false]. *)
Definition GetTool (tm : ToolManager) (name : string) : option Tool :=
  let allTools := ToolManager.GetTools tm in
  firstNamed name allTools.

(** The groups in the order of [rank]. *)
Definition allGroups : list Group :=
  [systemTools; networkTools; dataTools; databaseTools; aiTools].

End Manager.

(** *** StdioServer.handleMessages (src/unnamed/part_005)

    One [Iteration] is a pass of the loop in which the context was not yet
    cancelled at the [select]: [decoder.Decode] returned the given error or
    message.  The goroutine that [handleShutdown] launches with [go s.Stop()]
    and the [Stop] that [main] calls run between iterations ([Launched],
    [MainStop]); a cancellation that happens while [Decode] blocks is seen at
    the [select] of the next pass, so it is listed after the iteration.  The
    end of the list is [io.EOF]. *)
Module StdioLoop.

Inductive event : Type :=
  | Iteration (decoded : error + Message)
  | Launched
  | MainStop.

Section loop.
Context {golib : GoLib}.

Fixpoint handleMessages (events : list event) (s : StdioServer) : StdioServer :=
  match events with
  | [] => s
  | Launched :: events =>
      handleMessages events (if stopSpawned s then (StdioServer.Stop s).2 else s)
  | MainStop :: events => handleMessages events (StdioServer.Stop s).2
  | Iteration decoded :: events =>
      if cancelled s then s
      else
        match decoded with
        | inl _ => handleMessages events s
        | inr msg => handleMessages events (StdioServer.handleMessage msg s).2
        end
  end.

End loop.

(** The messages the loop decodes. *)
Definition decodedMessages (events : list event) : list Message :=
  omap (λ ev, match ev with Iteration (inr msg) => Some msg | _ => None end)
    events.

End StdioLoop.

(** What one call of a stdio handler may change between [s] and [s']: never
    the tool table, the executor or the capabilities, never a set
    [initialized] or [stopSpawned] flag, never [cancelled]; it appends at
    most one message to the output. *)
Definition served (s s' : StdioServer) : Prop :=
  tools (base s') = tools (base s)
  ∧ toolExecutor (base s') = toolExecutor (base s)
  ∧ capabilities (base s') = capabilities (base s)
  ∧ (initialized (base s) = true → initialized (base s') = true)
  ∧ (stopSpawned s = true → stopSpawned s' = true)
  ∧ cancelled s' = cancelled s
  ∧ ∃ out, written (writer s') = (written (writer s) ++ out)%list
           ∧ (length out ≤ 1)%nat.

(** *** Connections of the WebSocket server (src/unnamed/part_003)

    A [*websocket.Conn] is identified by a number.  Its [socket] records what
    [WriteJSON] has sent, whether [Close] was called on it, and whether its
    [handleConnection] loop is still running.  [conns] is the key set of the
    Go map, whose values are all [true].  The goroutines of the connections
    interleave at the granularity of one pass of the loop: an execution is a
    list of [event]s. *)
Module WebSocketConnections.

Definition Conn : Type := nat.

Record socket := mkSocket {
  sent : Writer;
  closed : bool;
  serving : bool }.

Record t := mk {
  session : BaseServer;
  conns : gset Conn;
  sockets : gmap Conn socket }.

(** A write on a closed connection fails. *)
Definition WriteJSON (msg : Message) (sk : socket) : option error * socket :=
  if closed sk then (Some "use of closed network connection", sk)
  else
    let '(err, w) := Write msg (sent sk) in
    (err, mkSocket w (closed sk) (serving sk)).


(** What [handleWebSocket] is called with: a request that is no upgrade, or
    one whose upgrade fails or yields a connection. *)
Inductive request : Type :=
  | Plain
  | Upgrade (result : error + Conn * Writer).

(** The registration also launches [handleConnection]. *)
Definition handleWebSocket (r : request) (s : t) : t :=
  match r with
  | Plain => s
  | Upgrade (inl _) => s
  | Upgrade (inr (conn, w)) =>
      mk (session s) ({[conn]} ∪ conns s)
        (<[conn := mkSocket w false true]> (sockets s))
  end.

(** The deferred function of [handleConnection], run when the loop is left. *)
Definition cleanup (conn : Conn) (sk : socket) (s : t) : t :=
  mk (session s) (conns s ∖ {[conn]})
    (<[conn := mkSocket (sent sk) true false]> (sockets s)).

Section loop.
Context {golib : GoLib}.

(** One pass of the loop of [handleConnection] in which [ReadMessage]
    returned the frame [message]. *)
Definition iteration (conn : Conn) (message : error + Message) (s : t) : t :=
  match sockets s !! conn with
  | Some sk =>
      if serving sk then
        match WebSocketServer.handleMessage message (session s) with
        | (_, Some err, b) =>
            let errorResponse :=
              WebSocketServer.errorMessage VNil (-32603) "Internal error"
                (Dyn (VString err)) in
            let '(_, sk) := WriteJSON errorResponse sk in
            mk b (conns s) (<[conn := sk]> (sockets s))
        | (Some response, None, b) =>
            match WriteJSON response sk with
            | (Some _, sk) => cleanup conn sk (mk b (conns s) (sockets s))
            | (None, sk) => mk b (conns s) (<[conn := sk]> (sockets s))
            end
        | (None, None, b) => mk b (conns s) (sockets s)
        end
      else s
  | None => s
  end.

(** The pass in which [ReadMessage] returns an error. *)
Definition readError (conn : Conn) (s : t) : t :=
  match sockets s !! conn with
  | Some sk => if serving sk then cleanup conn sk s else s
  | None => s
  end.

(** [Stop] closes and removes every registered connection (the shutdown of
    the listener is not part of the model). *)
Definition Stop (s : t) : t :=
  mk (session s) ∅
    (map_imap (λ conn sk,
       Some (if bool_decide (conn ∈ conns s)
             then mkSocket (sent sk) true (serving sk) else sk))
       (sockets s)).

Inductive event : Type :=
  | Request (r : request)
  | Frame (conn : Conn) (message : error + Message)
  | ReadError (conn : Conn)
  | Stopped.

Definition step (ev : event) (s : t) : t :=
  match ev with
  | Request r => handleWebSocket r s
  | Frame conn message => iteration conn message s
  | ReadError conn => readError conn s
  | Stopped => Stop s
  end.

Definition run (events : list event) (s : t) : t :=
  foldl (λ s ev, step ev s) s events.

End loop.

(** [NewWebSocketServer] around a server state. *)
Definition NewWebSocketServer (b : BaseServer) : t :=
  {| session := b; conns := ∅; sockets := ∅ |}.



End WebSocketConnections.

(** Every response the table of a connection holds is a response message
    stored under the key of its own id. *)
Definition well_stored (c : stdioConnection.t) : Prop :=
  ∀ k m, stdioConnection.responses c !! k = Some (Some m) →
         IsResponse m = true ∧ hashKey (ID m) = Some k.

(** *** The two loops of the stdio connection
        (src/internal/mcp/connection.go)

    The model follows the two goroutines that the [Start] of a new
    connection launches, up to the next [Start] that succeeds.  [scanner]
    holds the lines still to be scanned, each one blank or the outcome of
    [json.Unmarshal] on its text; an empty list makes [Scan] return [false].
    [responseCh] is the buffered channel, oldest message first.  A goroutine
    is at one of the places where it can be overtaken by another one, or has
    returned ([None]).  [handled] records, for stating results, the messages
    that [responseLoop] has passed to [handleResponse]. *)
Module stdioLoops.

Inductive line : Type :=
  | Blank
  | Text (parsed : error + Message).

(** [readLoop]: before the guard [c.IsRunning()], before [c.scanner.Scan()],
    or before the [select] with a decoded message. *)
Inductive reader : Type :=
  | AtGuard
  | AtScan
  | AtSelect (msg : Message).

(** [responseLoop]: before the [select], or before [c.handleResponse(msg)]
    with the message it has received. *)
Inductive dispatcher : Type :=
  | AtReceive
  | AtHandle (msg : Message).

Record t := mk {
  conn : stdioConnection.t;
  scanner : list line;
  responseCh : list Message;
  readLoop : option reader;
  responseLoop : option dispatcher;
  handled : list Message }.

(** [make(chan *Message, 100)] *)
Definition capacity : nat := 100.

(** A new connection on which [Start] has just returned. *)
Definition started (lines : list line) (writer : Writer) : t :=
  {| conn := (stdioConnection.Start (stdioConnection.newStdioConnection writer)).2;
     scanner := lines; responseCh := [];
     readLoop := Some AtGuard; responseLoop := Some AtReceive; handled := [] |}.

Definition with_conn (c : stdioConnection.t) (l : t) : t :=
  mk c (scanner l) (responseCh l) (readLoop l) (responseLoop l) (handled l).

Definition with_reader (lines : list line) (r : option reader) (l : t) : t :=
  mk (conn l) lines (responseCh l) r (responseLoop l) (handled l).

(** One step of [readLoop].  When both the send on [responseCh] and the
    receive from [stopCh] are ready, [select] takes either; [pick_stop] says
    which. *)
Definition readTurn (pick_stop : bool) (l : t) : t :=
  match readLoop l with
  | None => l
  | Some AtGuard =>
      if stdioConnection.IsRunning (conn l)
      then with_reader (scanner l) (Some AtScan) l
      else with_reader (scanner l) None l
  | Some AtScan =>
      match scanner l with
      | [] => with_reader [] None l
      | Blank :: rest | Text (inl _) :: rest => with_reader rest (Some AtGuard) l
      | Text (inr msg) :: rest => with_reader rest (Some (AtSelect msg)) l
      end
  | Some (AtSelect msg) =>
      let send :=
        mk (conn l) (scanner l) (responseCh l ++ [msg]) (Some AtGuard)
          (responseLoop l) (handled l) in
      let room := bool_decide (length (responseCh l) < capacity)%nat in
      let stopped := stdioConnection.stopCh (conn l) in
      if room && stopped then
        (if pick_stop then with_reader (scanner l) None l else send)
      else if room then send
      else if stopped then with_reader (scanner l) None l
      else
        (* default: the message is dropped *)
        with_reader (scanner l) (Some AtGuard) l
  end.

(** One step of [responseLoop]; with neither case of the [select] ready the
    goroutine stays blocked. *)
Definition responseTurn (pick_stop : bool) (l : t) : outcome t :=
  match responseLoop l with
  | None => Done l
  | Some AtReceive =>
      let exit :=
        mk (conn l) (scanner l) (responseCh l) (readLoop l) None (handled l) in
      let stopped := stdioConnection.stopCh (conn l) in
      match responseCh l with
      | msg :: queue =>
          if stopped && pick_stop then Done exit
          else
            Done (mk (conn l) (scanner l) queue (readLoop l)
                    (Some (AtHandle msg)) (handled l))
      | [] => if stopped then Done exit else Done l
      end
  | Some (AtHandle msg) =>
      c ← stdioConnection.handleResponse msg (conn l);
      Done (mk c (scanner l) (responseCh l) (readLoop l) (Some AtReceive)
              (handled l ++ [msg]))
  end.

(** What happens next: a call of the owner of the connection, or a step of
    one of the loops.  A [Start] is not listed: while the connection runs
    it returns an error and changes nothing. *)
Inductive event : Type :=
  | CallStop
  | CallSendMessage (msg : Message)
  | CallCleanup (id : value)
  | ReadTurn (pick_stop : bool)
  | ResponseTurn (pick_stop : bool).

Definition step (ev : event) (l : t) : outcome t :=
  match ev with
  | CallStop => r ← stdioConnection.Stop (conn l); Done (with_conn r.2 l)
  | CallSendMessage msg =>
      r ← stdioConnection.SendMessage msg (conn l); Done (with_conn r.2 l)
  | CallCleanup id => c ← stdioConnection.cleanup id (conn l); Done (with_conn c l)
  | ReadTurn pick_stop => Done (readTurn pick_stop l)
  | ResponseTurn pick_stop => responseTurn pick_stop l
  end.

Fixpoint run (events : list event) (l : t) : outcome t :=
  match events with
  | [] => Done l
  | ev :: events => l ← step ev l; run events l
  end.

(** The messages among the lines. *)
Definition parsed (lines : list line) : list Message :=
  omap (λ ln, match ln with Text (inr msg) => Some msg | _ => None end) lines.

(** The messages on their way from the scanner to [handleResponse], oldest
    first. *)
Definition in_flight (l : t) : list Message :=
  (match responseLoop l with Some (AtHandle msg) => [msg] | _ => [] end
   ++ responseCh l
   ++ match readLoop l with Some (AtSelect msg) => [msg] | _ => [] end)%list.

End stdioLoops.

(** ** Further example data *)
Module Scenarios.

(** The server [main] builds, with two connections accepted. *)
Definition twoConnections : WebSocketConnections.t :=
  WebSocketConnections.run (golib := Reference.lib)
    [WebSocketConnections.Request
       (WebSocketConnections.Upgrade (inr (1, Examples.stdout)));
     WebSocketConnections.Request
       (WebSocketConnections.Upgrade (inr (2, Examples.stdout)))]
    (WebSocketConnections.NewWebSocketServer Examples.ws0).

Definition openSocket : WebSocketConnections.socket :=
  WebSocketConnections.mkSocket Examples.stdout false true.

(** A connection that has sent [toolsList] and [callUnknown], and responses
    to them. *)
Definition conn2 : stdioConnection.t :=
  match stdioConnection.run
          [stdioConnection.CallStart;
           stdioConnection.CallSendMessage Examples.toolsList;
           stdioConnection.CallSendMessage Examples.callUnknown]
          (stdioConnection.newStdioConnection Examples.stdout) with
  | Done c => c
  | Panic _ => stdioConnection.newStdioConnection Examples.stdout
  end.

Definition toolsResponse : Message :=
  NewResponse (VString "tools-1") (OfToolList [Examples.tool "hash"]).

Definition callResponse : Message :=
  NewErrorResponse (VString "call-1") InternalErrorCode "Tool execution failed"
    nil.

(** Input of a client: a blank line, a line that is no JSON, a response. *)
Definition replyLines : list stdioLoops.line :=
  [stdioLoops.Blank; stdioLoops.Text (inl "unexpected end of JSON input");
   stdioLoops.Text (inr Examples.lateResponse)].

(** Stand-ins for [json.Marshal] and for the decoding of a result. *)
Definition marshal {P : Type} (params : P) : error + RawMessage := inr None.

Definition decodeTools (result : any) : error + list Tool :=
  match result with
  | OfToolList tools => inr tools
  | _ => inl "json: cannot unmarshal"
  end.

Definition decodeToolCallResult (result : any) : error + ToolCallResult :=
  match result with
  | OfToolCallResult r => inr r
  | _ => inl "json: cannot unmarshal"
  end.

Definition decodeResourceReadResult (result : any)
    : error + ResourceReadResult :=
  match result with
  | OfResourceReadResult r => inr r
  | _ => inl "json: cannot unmarshal"
  end.

End Scenarios.

(** *** StdioClient (src/internal/mcp/client.go)

    The reader and the writer of a client are handed to every connection it
    creates.  The state of the output is kept in one place: in [writer] while
    the client has no connection, in the connection afterwards ([stream]).
    The handlers set by [OnMessage] and [OnError] are never called and are
    left out.  A method that waits takes the schedule of its
    [WaitForResponse]; [Shutdown] takes the calls of other goroutines during
    its [time.Sleep]. *)
Module StdioClient.

Record t := mk {
  writer : Writer;
  conn : option stdioConnection.t }.

Definition NewStdioClient (writer : Writer) : t :=
  {| writer := writer; conn := None |}.

Definition stream (cl : t) : Writer :=
  match conn cl with
  | Some c => stdioConnection.writer c
  | None => writer cl
  end.

Definition Connect (cl : t) : option error * t :=
  let '(err, c) :=
    stdioConnection.Start (stdioConnection.newStdioConnection (stream cl)) in
  (err, mk (writer cl) (Some c)).

Definition Disconnect (cl : t) : outcome (option error * t) :=
  match conn cl with
  | Some c =>
      r ← stdioConnection.Stop c; Done (r.1, mk (writer cl) (Some r.2))
  | None => Done (None, cl)
  end.

Definition IsConnected (cl : t) : bool :=
  match conn cl with
  | Some c => stdioConnection.IsRunning c
  | None => false
  end.

(** [c.conn.SendMessage(&msg)] *)
Definition send (msg : Message) (cl : t) : outcome (option error * t) :=
  match conn cl with
  | Some c =>
      r ← stdioConnection.SendMessage msg c;
      Done (r.1, mk (writer cl) (Some r.2))
  | None => Panic "invalid memory address or nil pointer dereference"
  end.

(** [c.conn.WaitForResponse(id, timeout)] *)
Definition wait (id : value) (sched : list stdioConnection.slot) (cl : t)
    : outcome (option Message * t) :=
  match conn cl with
  | Some c =>
      r ← stdioConnection.WaitForResponse id sched c;
      Done (r.1, mk (writer cl) (Some r.2))
  | None => Panic "invalid memory address or nil pointer dereference"
  end.

(** Calls of other goroutines on the connection of the client. *)
Definition others (calls : list stdioConnection.call) (cl : t) : outcome t :=
  match conn cl with
  | Some c => c ← stdioConnection.run calls c; Done (mk (writer cl) (Some c))
  | None => Done cl
  end.

(** [fmt.Sprintf] with the verb [%d] on an [int64]. *)
Definition FormatInt (n : Z) : string := NilZero.string_of_int (Z.to_int n).

Section methods.
(** [json.Marshal] of the three parameter types, and [json.Marshal] followed
    by [json.Unmarshal] into the result type of each method. *)
Context (MarshalInitializeParams : InitializeParams → error + RawMessage)
        (MarshalToolCallParams : ToolCallParams → error + RawMessage)
        (MarshalResourceReadParams : ResourceReadParams → error + RawMessage)
        (DecodeTools : any → error + list Tool)
        (DecodeToolCallResult : any → error + ToolCallResult)
        (DecodeResourceReadResult : any → error + ResourceReadResult).

Definition Initialize (cl : t) : outcome (option error * t) :=
  if negb (IsConnected cl) then Done (Some "客户端未连接", cl)
  else
    let params :=
      {| InitializeParams_ProtocolVersion := ProtocolVersion;
         InitializeParams_Capabilities :=
           Some {[ "tools" := VMap {[ "listChanged" := VBool true ]};
                   "resources" := VMap {[ "listChanged" := VBool true ]} ]};
         InitializeParams_ClientInfo :=
           Some {| ClientInfo_Name := "stdio-mcp-client";
                   ClientInfo_Version := "1.0.0" |} |} in
    let msg :=
      {| JSONRPC := JSONRPCVersion; ID := VString "init-1";
         Method := "initialize";
         Params := paramsBytes MarshalInitializeParams params;
         Result := nil; Error := None |} in
    send msg cl.

Definition Shutdown (during_sleep : list stdioConnection.call) (cl : t)
    : outcome (option error * t) :=
  if negb (IsConnected cl) then Done (None, cl)
  else
    let msg :=
      {| JSONRPC := JSONRPCVersion; ID := VString "shutdown-1";
         Method := "shutdown"; Params := None; Result := nil; Error := None |} in
    r ← send msg cl;
    match r.1 with
    | Some err => Done (Some err, r.2)
    | None => cl ← others during_sleep r.2; Disconnect cl
    end.

(** A nil slice is the empty list. *)
Definition ListTools (sched : list stdioConnection.slot) (cl : t)
    : outcome ((list Tool * option error) * t) :=
  if negb (IsConnected cl) then Done (([], Some "客户端未连接"), cl)
  else
    let msg :=
      {| JSONRPC := JSONRPCVersion; ID := VString "tools-1";
         Method := "tools/list"; Params := None; Result := nil; Error := None |} in
    r ← send msg cl;
    match r.1 with
    | Some err => Done (([], Some err), r.2)
    | None =>
        r ← wait (ID msg) sched r.2;
        match r.1 with
        | None => Done (([], Some "获取工具列表超时"), r.2)
        | Some response =>
            match Error response with
            | Some e =>
                Done (([], Some ("获取工具列表失败: " ++ Error.Message e)), r.2)
            | None =>
                if is_nil (Result response) then Done (([], None), r.2)
                else
                  match DecodeTools (Result response) with
                  | inl err => Done (([], Some ("解析工具列表失败: " ++ err)), r.2)
                  | inr tools => Done ((tools, None), r.2)
                  end
            end
        end
    end.

(** [now] is [time.Now().Unix()]. *)
Definition CallTool (now : Z) (name : string) (arguments : GoMap)
    (sched : list stdioConnection.slot) (cl : t)
    : outcome ((option ToolCallResult * option error) * t) :=
  if negb (IsConnected cl) then Done ((None, Some "客户端未连接"), cl)
  else
    let params :=
      {| ToolCallParams_Name := name; ToolCallParams_Arguments := arguments |} in
    let msg :=
      {| JSONRPC := JSONRPCVersion; ID := VString ("call-" ++ FormatInt now);
         Method := "tools/call";
         Params := paramsBytes MarshalToolCallParams params;
         Result := nil; Error := None |} in
    r ← send msg cl;
    match r.1 with
    | Some err => Done ((None, Some err), r.2)
    | None =>
        r ← wait (ID msg) sched r.2;
        match r.1 with
        | None => Done ((None, Some "调用工具超时"), r.2)
        | Some response =>
            match Error response with
            | Some e =>
                Done ((None, Some ("调用工具失败: " ++ Error.Message e)), r.2)
            | None =>
                if is_nil (Result response)
                then Done ((Some (mkToolCallResult []), None), r.2)
                else
                  match DecodeToolCallResult (Result response) with
                  | inl err =>
                      Done ((None, Some ("解析工具调用结果失败: " ++ err)), r.2)
                  | inr result => Done ((Some result, None), r.2)
                  end
            end
        end
    end.

Definition ReadResource (now : Z) (uri : string)
    (sched : list stdioConnection.slot) (cl : t)
    : outcome ((option ResourceReadResult * option error) * t) :=
  if negb (IsConnected cl) then Done ((None, Some "客户端未连接"), cl)
  else
    let params := {| URI := uri |} in
    let msg :=
      {| JSONRPC := JSONRPCVersion; ID := VString ("read-" ++ FormatInt now);
         Method := "resources/read";
         Params := paramsBytes MarshalResourceReadParams params;
         Result := nil; Error := None |} in
    r ← send msg cl;
    match r.1 with
    | Some err => Done ((None, Some err), r.2)
    | None =>
        r ← wait (ID msg) sched r.2;
        match r.1 with
        | None => Done ((None, Some "读取资源超时"), r.2)
        | Some response =>
            match Error response with
            | Some e =>
                Done ((None, Some ("读取资源失败: " ++ Error.Message e)), r.2)
            | None =>
                if is_nil (Result response)
                then Done ((Some (mkResourceReadResult [] ""), None), r.2)
                else
                  match DecodeResourceReadResult (Result response) with
                  | inl err =>
                      Done ((None, Some ("解析资源读取结果失败: " ++ err)), r.2)
                  | inr result => Done ((Some result, None), r.2)
                  end
            end
        end
    end.

Definition WriteResource (uri : string) (content : list Content) (cl : t)
    : option error :=
  if negb (IsConnected cl) then Some "客户端未连接"
  else Some "写入资源功能尚未实现".

Definition ListResources (uri : string) (cl : t) : list string * option error :=
  if negb (IsConnected cl) then ([], Some "客户端未连接")
  else ([], Some "列出资源功能尚未实现").

(** A use of the client by its owner: a list of method calls. *)
Inductive op : Type :=
  | OpConnect
  | OpDisconnect
  | OpInitialize
  | OpShutdown (during_sleep : list stdioConnection.call)
  | OpListTools (sched : list stdioConnection.slot)
  | OpCallTool (now : Z) (name : string) (arguments : GoMap)
      (sched : list stdioConnection.slot)
  | OpReadResource (now : Z) (uri : string) (sched : list stdioConnection.slot).

Definition exec (o : op) (cl : t) : outcome t :=
  match o with
  | OpConnect => Done (Connect cl).2
  | OpDisconnect => r ← Disconnect cl; Done r.2
  | OpInitialize => r ← Initialize cl; Done r.2
  | OpShutdown during_sleep => r ← Shutdown during_sleep cl; Done r.2
  | OpListTools sched => r ← ListTools sched cl; Done r.2
  | OpCallTool now name arguments sched =>
      r ← CallTool now name arguments sched cl; Done r.2
  | OpReadResource now uri sched => r ← ReadResource now uri sched cl; Done r.2
  end.

Fixpoint run (ops : list op) (cl : t) : outcome t :=
  match ops with
  | [] => Done cl
  | o :: ops => cl ← exec o cl; run ops cl
  end.

End methods.

(** The calls the two loops of a connection make on it: [handleResponse],
    here never with a response whose id cannot be a map key. *)
Definition from_loops (calls : list stdioConnection.call) : Prop :=
  ∀ cl, cl ∈ calls →
        ∃ msg, cl = stdioConnection.CallHandleResponse msg
               ∧ (IsResponse msg = true → hashKey (ID msg) ≠ None).

(** A connection is running exactly while its stop channel is open. *)
Definition stoppable (cl : t) : Prop :=
  match conn cl with
  | Some c => stdioConnection.running c = negb (stdioConnection.stopCh c)
  | None => True
  end.

Definition op_from_loops (o : op) : Prop :=
  match o with
  | OpConnect | OpDisconnect | OpInitialize => True
  | OpShutdown during_sleep => from_loops during_sleep
  | OpListTools sched | OpCallTool _ _ _ sched | OpReadResource _ _ sched =>
      from_loops (stdioConnection.calls_of sched)
  end.

End StdioClient.

(** * Results *)

(** ** Message classification *)

Lemma bool_decide_ne_negb (s t : string) :
  bool_decide (s ≠ t) = negb (bool_decide (s = t)).
Proof. by rewrite bool_decide_not. Qed.

Lemma Validate_pass (m : Message) :
  Validate m = None ↔
  JSONRPC m = JSONRPCVersion
  ∧ bool_decide (Method m = "") && is_nil (Result m) && nilptr (Error m) = false.
Proof.
  unfold Validate. case_bool_decide as Hv.
  - split; [done | intros [? _]; contradiction].
  - destruct (bool_decide (Method m = "") && is_nil (Result m) && nilptr (Error m));
      intuition congruence.
Qed.

Lemma request_and_response_is_mixed (m : Message) :
  IsRequest m && IsResponse m = mixed m.
Proof.
  unfold IsRequest, IsResponse, mixed.
  destruct (bool_decide (Method m ≠ "")), (id_nil (ID m)),
    (is_nil (Result m)), (nilptr (Error m)); reflexivity.
Qed.

Lemma notification_excludes (m : Message) :
  IsNotification m = true → IsRequest m = false ∧ IsResponse m = false.
Proof.
  unfold IsNotification, IsRequest, IsResponse.
  destruct (bool_decide (Method m ≠ "")), (id_nil (ID m)),
    (is_nil (Result m)), (nilptr (Error m)); simpl; intuition congruence.
Qed.

(** C1, as stated, fails: a message that passes [Validate] can be a request
    and a response at once. *)
Lemma classification_not_exclusive :
  Validate Examples.requestWithResult = None
  ∧ IsRequest Examples.requestWithResult = true
  ∧ IsResponse Examples.requestWithResult = true
  ∧ exactly_one (IsRequest Examples.requestWithResult)
      (IsResponse Examples.requestWithResult)
      (IsNotification Examples.requestWithResult) = false.
Proof. repeat split; reflexivity. Qed.

(** A message that passes [Validate] can also be none of the three. *)
Lemma classification_not_exhaustive :
  Validate Examples.resultWithoutId = None
  ∧ IsRequest Examples.resultWithoutId = false
  ∧ IsResponse Examples.resultWithoutId = false
  ∧ IsNotification Examples.resultWithoutId = false.
Proof. repeat split; reflexivity. Qed.

(** C1 (amended): for a message that passes [Validate], [IsNotification]
    excludes the other two predicates, [IsRequest] and [IsResponse] hold
    together exactly on a [mixed] message, none of the three holds exactly on
    an [anonymous] message, and so exactly one of the three holds if and only
    if the message is neither [mixed] nor [anonymous]. *)
Theorem classification_exactly_one_iff (m : Message) :
  Validate m = None →
  (IsNotification m = true → IsRequest m = false ∧ IsResponse m = false)
  ∧ IsRequest m && IsResponse m = mixed m
  ∧ negb (IsRequest m || IsResponse m || IsNotification m) = anonymous m
  ∧ (exactly_one (IsRequest m) (IsResponse m) (IsNotification m) = true
     ↔ mixed m = false ∧ anonymous m = false).
Proof.
  intros [_ Hshape]%Validate_pass.
  split; [apply notification_excludes|].
  split; [apply request_and_response_is_mixed|].
  revert Hshape.
  unfold IsRequest, IsResponse, IsNotification, mixed, anonymous.
  rewrite bool_decide_ne_negb.
  destruct (bool_decide (Method m = "")), (id_nil (ID m)),
    (is_nil (Result m)), (nilptr (Error m)); simpl; intuition congruence.
Qed.

Lemma classification_exactly_one_iff_witness :
  Validate Examples.toolsList = None
  ∧ exactly_one (IsRequest Examples.toolsList) (IsResponse Examples.toolsList)
      (IsNotification Examples.toolsList) = true.
Proof.
  split; [reflexivity|].
  apply (classification_exactly_one_iff Examples.toolsList); [reflexivity|].
  split; reflexivity.
Defined.

(** ** The stdio server: sending and dispatch *)

Section dispatch_facts.
Context {golib : GoLib}.

Lemma sendMessage_answers (r : Message) (s : StdioServer) :
  answers r (writer s) (StdioServer.sendMessage r s)
  ∧ base (StdioServer.sendMessage r s).2 = base s
  ∧ stopSpawned (StdioServer.sendMessage r s).2 = stopSpawned s.
Proof.
  unfold answers, StdioServer.sendMessage, Write, accepts.
  destruct (outcomes (writer s)) as [|[e|] rest]; simpl;
    repeat split; intros; simplify_eq; done.
Qed.



Lemma handleMessage_request (msg : Message) (s : StdioServer) :
  Validate msg = None → IsRequest msg = true →
  StdioServer.handleMessage msg s = StdioServer.handleRequest msg s.
Proof. intros Hv Hr. unfold StdioServer.handleMessage. by rewrite Hv, Hr. Qed.





Lemma handleRequest_shutdown (msg : Message) (s : StdioServer) :
  Method msg = "shutdown" →
  StdioServer.handleRequest msg s = StdioServer.handleShutdown msg s.
Proof. intros Hm. unfold StdioServer.handleRequest. by rewrite Hm. Qed.

Lemma handleMessage_initialize (msg : Message) (s : BaseServer) :
  Method msg = "initialize" →
  WebSocketServer.handleMessage (inr msg) s
  = WebSocketServer.handleInitialize msg s.
Proof. intros Hm. unfold WebSocketServer.handleMessage. by rewrite Hm. Qed.

Lemma handleMessage_tools_list (msg : Message) (s : BaseServer) :
  Method msg = "tools/list" →
  WebSocketServer.handleMessage (inr msg) s
  = WebSocketServer.handleToolsList msg s.
Proof. intros Hm. unfold WebSocketServer.handleMessage. by rewrite Hm. Qed.



Lemma handleMessage_shutdown (msg : Message) (s : BaseServer) :
  Method msg = "shutdown" →
  WebSocketServer.handleMessage (inr msg) s
  = WebSocketServer.handleShutdown msg s.
Proof. intros Hm. unfold WebSocketServer.handleMessage. by rewrite Hm. Qed.

End dispatch_facts.

(** ** The session state machine *)

Section session.
Context {golib : GoLib}.



Lemma handleShutdown_answers (msg : Message) (s : StdioServer) :
  answers (NewResponse (ID msg) nil) (writer s) (StdioServer.handleShutdown msg s)
  ∧ base (StdioServer.handleShutdown msg s).2 = base s
  ∧ (accepts (writer s) = true →
     stopSpawned (StdioServer.handleShutdown msg s).2 = true).
Proof.
  unfold StdioServer.handleShutdown, StdioServer.sendResponse, answers.
  destruct (sendMessage_answers (NewResponse (ID msg) nil) s) as ([Ha Hr] & Hb & _).
  destruct (StdioServer.sendMessage (NewResponse (ID msg) nil) s) as [[e|] s'];
    destruct (accepts (writer s)); simpl in *; intuition congruence.
Qed.

(** C4 (amended): the reply to [shutdown] is never an error response: it
    carries the id of the request, no error and a nil result.  The
    WebSocket server is uninitialized afterwards, so that a following
    [initialize] succeeds and a following [tools/list] is refused as not
    initialized.  The stdio server leaves its [initialized] flag and
    [clientInfo] as they were and launches [Stop]. *)
Theorem shutdown_reply_and_state (msg : Message) :
  Method msg = "shutdown" →
  (∀ s : StdioServer,
     Validate msg = None → IsRequest msg = true →
     answers (NewResponse (ID msg) nil) (writer s)
       (StdioServer.handleMessage msg s)
     ∧ base (StdioServer.handleMessage msg s).2 = base s
     ∧ (accepts (writer s) = true →
        stopSpawned (StdioServer.handleMessage msg s).2 = true))
  ∧ (∀ s : BaseServer,
     WebSocketServer.handleMessage (inr msg) s
     = (Some (WebSocketServer.resultMessage (ID msg) nil), None,
        set_initialized false s)
     ∧ (∀ next, Method next = "initialize" →
          ∃ r s', WebSocketServer.handleMessage (inr next) (set_initialized false s)
                  = (Some r, None, s')
                  ∧ Error r = None ∧ is_nil (Result r) = false
                  ∧ initialized s' = true)
     ∧ (∀ next, Method next = "tools/list" →
          WebSocketServer.handleMessage (inr next) (set_initialized false s)
          = (Some (WebSocketServer.errorMessage (ID next) (-32002)
                     "Not initialized" nil),
             None, set_initialized false s)))
  ∧ Error (NewResponse (ID msg) nil) = None
  ∧ Error (WebSocketServer.resultMessage (ID msg) nil) = None
  ∧ is_nil (Result (NewResponse (ID msg) nil)) = true
  ∧ is_nil (Result (WebSocketServer.resultMessage (ID msg) nil)) = true.
Proof.
  intros Hm. split; [|split; [|done]].
  - intros s Hv Hr. rewrite handleMessage_request by done.
    rewrite handleRequest_shutdown by done. apply handleShutdown_answers.
  - intros s. split; [|split].
    + by rewrite handleMessage_shutdown.
    + intros next Hn. rewrite handleMessage_initialize by done.
      unfold WebSocketServer.handleInitialize. simpl. eauto 10.
    + intros next Hn. by rewrite handleMessage_tools_list.
Qed.

(** C9: the reply of the stdio server to [shutdown] is [NewResponse] on a
    nil result: it is the only message [handleShutdown] sends, it has
    neither result nor error, [IsResponse] is false on it and [Validate]
    rejects it. *)
Theorem stdio_shutdown_reply_is_empty (msg : Message) (s : StdioServer) :
  answers (NewResponse (ID msg) nil) (writer s) (StdioServer.handleShutdown msg s)
  ∧ is_nil (Result (NewResponse (ID msg) nil)) = true
  ∧ Error (NewResponse (ID msg) nil) = None
  ∧ IsResponse (NewResponse (ID msg) nil) = false
  ∧ Validate (NewResponse (ID msg) nil)
    = Some "message must have method, result, or error".
Proof.
  split; [apply handleShutdown_answers|]. repeat split.
Qed.


End session.

(** ** Calls to tools the registry does not know *)

Section unknown_tool.
Context {golib : GoLib}.

Lemma ExecuteTool_unknown (tm : ToolManager) (name : string) (arguments : GoMap) :
  toolMap tm !! name = None →
  ToolManager.ExecuteTool tm name arguments
  = (None, Some ("工具未找到: " ++ name)).
Proof. intros Hn. unfold ToolManager.ExecuteTool. by rewrite Hn. Qed.


End unknown_tool.

(** ** The session state machine on the example servers *)





Lemma shutdown_reply_and_state_witness :
  answers (NewResponse (VString "shutdown-1") nil) (writer Examples.stdio1)
    (StdioServer.handleMessage (golib := Reference.lib) Examples.shutdown
       Examples.stdio1)
  ∧ WebSocketServer.handleMessage (golib := Reference.lib)
      (inr Examples.shutdown) Examples.ws1
    = (Some (WebSocketServer.resultMessage (VString "shutdown-1") nil), None,
       set_initialized false Examples.ws1).
Proof.
  destruct (shutdown_reply_and_state (golib := Reference.lib) Examples.shutdown)
    as (Hs & Hw & _); [reflexivity|].
  split.
  - apply (Hs Examples.stdio1); reflexivity.
  - apply (Hw Examples.ws1).
Defined.

(** C4, as stated, fails on the stdio server: after [shutdown] on an
    initialized session the [initialized] flag is still set, a following
    [initialize] is refused as already initialized, and the reply to
    [shutdown] carries no result. *)
Lemma stdio_shutdown_keeps_initialized :
  initialized (base Examples.stdio1) = true
  ∧ initialized
      (base (StdioServer.handleMessage (golib := Reference.lib) Examples.shutdown
               Examples.stdio1).2) = true
  ∧ last (written (writer
            (StdioServer.handleMessage (golib := Reference.lib) Examples.shutdown
               Examples.stdio1).2))
    = Some (NewResponse (VString "shutdown-1") nil)
  ∧ is_nil (Result (NewResponse (VString "shutdown-1") nil)) = true
  ∧ last (written (writer
            (StdioServer.handleMessage (golib := Reference.lib) Examples.initialize
               (StdioServer.handleMessage (golib := Reference.lib)
                  Examples.shutdown Examples.stdio1).2).2))
    = Some (NewErrorResponse (VString "init-1") InvalidRequestCode
              "already initialized" nil).
Proof. repeat split; reflexivity. Qed.




(** ** The tool registry *)

Lemma register_lookup (g : Group) (ts : list Tool) (m : gmap string Group)
    (x : string) :
  ToolManager.register g ts m !! x
  = if decide (x ∈ Name <$> ts) then Some g else m !! x.
Proof.
  unfold ToolManager.register. revert m.
  induction ts as [|tool ts IH]; intros m.
  - rewrite decide_False; [done | set_solver].
  - cbn [foldl]. rewrite IH, fmap_cons.
    destruct (decide (x ∈ Name <$> ts)) as [Hin|Hnin].
    + rewrite decide_True; [done | set_solver].
    + destruct (decide (Name tool = x)) as [->|Hne].
      * rewrite lookup_insert_eq, decide_True; [done | set_solver].
      * rewrite lookup_insert_ne, decide_False; [done | set_solver | done].
Qed.

Lemma NewToolManager_lookup (groups : Group → Provider.t) (x : string) :
  toolMap (ToolManager.NewToolManager groups) !! x
  = if decide (ToolManager.declares groups aiTools x) then Some aiTools
    else if decide (ToolManager.declares groups databaseTools x) then Some databaseTools
    else if decide (ToolManager.declares groups dataTools x) then Some dataTools
    else if decide (ToolManager.declares groups networkTools x) then Some networkTools
    else if decide (ToolManager.declares groups systemTools x) then Some systemTools
    else None.
Proof.
  unfold ToolManager.NewToolManager, ToolManager.declares. simpl.
  rewrite !register_lookup, lookup_empty. reflexivity.
Qed.

Lemma NewToolManager_binds_last (groups : Group → Provider.t) (x : string)
    (g : Group) :
  toolMap (ToolManager.NewToolManager groups) !! x = Some g
  ↔ ToolManager.declares groups g x
    ∧ ∀ g', ToolManager.declares groups g' x → (rank g' ≤ rank g)%nat.
Proof.
  rewrite NewToolManager_lookup. split.
  - intros Hl. repeat case_decide; simplify_eq; (split; [done|]);
      intros [] ?; simpl; first [lia | done].
  - intros [Hd Hmax].
    repeat case_decide; destruct g; try done;
      match goal with
      | Hg : ToolManager.declares _ ?g' _ |- _ =>
          lazymatch type of Hd with
          | ToolManager.declares _ g' _ => fail
          | _ => apply Hmax in Hg; simpl in Hg; lia
          end
      end.
Qed.

(** C5: in the map [NewToolManager] builds, a name declared by two groups has
    one binding, to the later registered of the two (the last in the order
    system, network, data, database, AI among the groups that declare it);
    a name declared by a single group is bound to that group; a name no group
    declares has no binding. *)
Theorem toolMap_last_registration_wins (groups : Group → Provider.t)
    (x : string) :
  (∀ g1 g2,
     ToolManager.declares groups g1 x → ToolManager.declares groups g2 x →
     (rank g1 < rank g2)%nat →
     (∀ g, ToolManager.declares groups g x → (rank g ≤ rank g2)%nat) →
     ∀ g, toolMap (ToolManager.NewToolManager groups) !! x = Some g ↔ g = g2)
  ∧ (∀ g,
     ToolManager.declares groups g x →
     (∀ g', ToolManager.declares groups g' x → g' = g) →
     toolMap (ToolManager.NewToolManager groups) !! x = Some g)
  ∧ (∀ g,
     toolMap (ToolManager.NewToolManager groups) !! x = Some g
     ↔ ToolManager.declares groups g x
       ∧ ∀ g', ToolManager.declares groups g' x → (rank g' ≤ rank g)%nat)
  ∧ (toolMap (ToolManager.NewToolManager groups) !! x = None
     ↔ ∀ g, ¬ ToolManager.declares groups g x).
Proof.
  split; [|split; [|split]].
  - intros g1 g2 _ H2 _ Hmax g. split.
    + intros Hg. assert (toolMap (ToolManager.NewToolManager groups) !! x = Some g2)
        as Hg2 by (apply NewToolManager_binds_last; done). congruence.
    + intros ->. apply NewToolManager_binds_last; done.
  - intros g Hd Honly. apply NewToolManager_binds_last. split; [done|].
    intros g' Hg'. by rewrite (Honly g' Hg').
  - apply NewToolManager_binds_last.
  - rewrite NewToolManager_lookup. split.
    + intros Hn []; repeat case_decide; done.
    + intros Hn. repeat case_decide; try done; exfalso; eapply Hn; eassumption.
Qed.

Lemma toolMap_last_registration_wins_witness :
  ToolManager.declares Examples.groups systemTools "hash"
  ∧ ToolManager.declares Examples.groups dataTools "hash"
  ∧ toolMap Examples.manager !! "hash" = Some dataTools
  ∧ toolMap Examples.manager !! "db_query" = Some databaseTools.
Proof.
  assert (ToolManager.declares Examples.groups systemTools "hash") as H1
    by (unfold ToolManager.declares; simpl; repeat constructor).
  assert (ToolManager.declares Examples.groups dataTools "hash") as H2
    by (unfold ToolManager.declares; simpl; repeat constructor).
  destruct (toolMap_last_registration_wins Examples.groups "hash") as (Htwo & _).
  destruct (toolMap_last_registration_wins Examples.groups "db_query")
    as (_ & Hone & _).
  split; [exact H1|]. split; [exact H2|]. split.
  - apply (Htwo systemTools dataTools H1 H2); [simpl; lia | | reflexivity].
    intros [] Hd; simpl; try lia; unfold ToolManager.declares in Hd; simpl in Hd;
      set_solver.
  - apply (Hone databaseTools).
    + unfold ToolManager.declares; simpl; repeat constructor.
    + intros [] Hd; try reflexivity; unfold ToolManager.declares in Hd;
        simpl in Hd; set_solver.
Defined.

(** ** The pending table of the stdio connection *)

Module Import connection_facts.
Import stdioConnection.

Lemma Start_responses (c : t) : responses (Start c).2 = responses c.
Proof. unfold Start. by destruct (running c). Qed.

Lemma Stop_responses (c : t) (r : option error * t) :
  Stop c = Done r → responses r.2 = responses c.
Proof.
  unfold Stop. destruct (running c), (stopCh c); simpl; intros; by simplify_eq.
Qed.

Lemma SendMessage_responses (msg : Message) (c : t) (r : option error * t) :
  SendMessage msg c = Done r →
  responses r.2 = responses c
  ∨ (IsRequest msg = true
     ∧ ∃ k, hashKey (ID msg) = Some k ∧ responses r.2 = <[k := None]> (responses c)).
Proof.
  unfold SendMessage, IsRunning. destruct (running c); simpl.
  - destruct (Write msg (writer c)) as [[err|] w]; simpl.
    + intros; simplify_eq; by left.
    + destruct (IsRequest msg); [|intros; simplify_eq; by left].
      destruct (hashKey (ID msg)) as [k|]; [|done].
      intros; simplify_eq. right. eauto.
  - intros; simplify_eq; by left.
Qed.

Lemma handleResponse_responses (msg : Message) (c c' : t) :
  handleResponse msg c = Done c' →
  responses c' = responses c
  ∨ (IsResponse msg = true
     ∧ ∃ k, hashKey (ID msg) = Some k ∧ is_Some (responses c !! k)
            ∧ responses c' = <[k := Some msg]> (responses c)).
Proof.
  unfold handleResponse. destruct (IsResponse msg); [|intros; simplify_eq; by left].
  destruct (hashKey (ID msg)) as [k|]; [|done].
  destruct (responses c !! k) as [e|] eqn:Hk; intros; simplify_eq.
  - right. split; [done|]. exists k. rewrite Hk. eauto.
  - by left.
Qed.

Lemma cleanup_responses (id : value) (c c' : t) :
  cleanup id c = Done c' →
  ∃ k, hashKey id = Some k ∧ responses c' = delete k (responses c).
Proof.
  unfold cleanup. destruct (hashKey id) as [k|]; [|done].
  intros; simplify_eq. eauto.
Qed.

Lemma bind_Done {A B : Type} (x : outcome A) (f : A → outcome B) (b : B) :
  x ≫= f = Done b ↔ ∃ a, x = Done a ∧ f a = Done b.
Proof.
  destruct x as [a|reason]; simpl.
  - split; [eauto | by intros (? & [= <-] & ?)].
  - split; [done | by intros (? & ? & ?)].
Qed.

Lemma run_app (l1 l2 : list call) (c : t) :
  run (l1 ++ l2) c = run l1 c ≫= run l2.
Proof.
  revert c. induction l1 as [|cl l1 IH]; intros c; simpl; [done|].
  destruct (step cl c) as [c1|]; simpl; [apply IH | done].
Qed.

Lemma step_dom (cl : call) (c c' : t) (k : Key) :
  step cl c = Done c' → k ∈ dom (responses c') →
  k ∈ dom (responses c)
  ∨ ∃ msg, cl = CallSendMessage msg ∧ IsRequest msg = true
           ∧ hashKey (ID msg) = Some k.
Proof.
  destruct cl as [| |msg|msg|id]; simpl.
  - intros [= <-]. rewrite Start_responses. by left.
  - intros (r & Hr & [= <-])%bind_Done. rewrite (Stop_responses _ _ Hr). by left.
  - intros (r & Hr & [= <-])%bind_Done.
    destruct (SendMessage_responses _ _ _ Hr) as [->|(Hq & k' & Hk' & ->)];
      [by left|].
    rewrite dom_insert_L, elem_of_union, elem_of_singleton.
    intros [->|?]; [right; eauto | by left].
  - intros Hh. destruct (handleResponse_responses _ _ _ Hh)
      as [->|(_ & k' & _ & Hs & ->)]; [by left|].
    rewrite dom_insert_L, elem_of_union, elem_of_singleton.
    intros [->|?]; left; [by apply elem_of_dom | done].
  - intros (k' & _ & ->)%cleanup_responses.
    rewrite dom_delete_L. set_solver.
Qed.

Lemma registered_cons (cl : call) (calls : list call) (k : Key) :
  registered calls k → registered (cl :: calls) k.
Proof. intros (msg & ? & ? & ?). exists msg. set_solver. Qed.

Lemma registered_app (l1 l2 : list call) (k : Key) :
  registered (l1 ++ l2) k ↔ registered l1 k ∨ registered l2 k.
Proof.
  unfold registered. setoid_rewrite elem_of_app. naive_solver.
Qed.

Lemma run_dom (calls : list call) (c c' : t) (k : Key) :
  run calls c = Done c' → k ∈ dom (responses c') →
  k ∈ dom (responses c) ∨ registered calls k.
Proof.
  revert c. induction calls as [|cl calls IH]; intros c; simpl.
  - intros [= <-]. by left.
  - intros (c1 & H1 & Hrun)%bind_Done Hk.
    destruct (IH _ Hrun Hk) as [Hk1|Hreg]; [|right; by apply registered_cons].
    destruct (step_dom _ _ _ _ H1 Hk1) as [?|(msg & -> & ? & ?)]; [by left|].
    right. exists msg. set_solver.
Qed.

Lemma WaitForResponse_dom (id : value) (sched : list slot) (c c' : t)
    (r : option Message) (k : Key) :
  WaitForResponse id sched c = Done (r, c') → k ∈ dom (responses c') →
  k ∈ dom (responses c) ∨ registered (calls_of sched) k.
Proof.
  revert c. induction sched as [|sl sched IH]; intros c; simpl.
  - intros [= <- <-]. by left.
  - unfold calls_of. rewrite fmap_cons. simpl. fold (calls_of sched).
    rewrite !registered_app.
    destruct (hashKey id) as [k0|] eqn:Hid; [|done].
    destruct (responses c !! k0) as [[response|]|] eqn:Hk0.
    + intros (c1 & H1 & (c2 & H2 & [= <- <-])%bind_Done)%bind_Done Hk.
      apply cleanup_responses in H2 as (k' & _ & H2). rewrite H2 in Hk.
      rewrite dom_delete_L in Hk. apply elem_of_difference in Hk as [Hk _].
      destruct (run_dom _ _ _ _ H1 Hk); auto.
    + intros (c1 & H1 & Hw)%bind_Done Hk.
      destruct (IH _ Hw Hk) as [Hk1|?]; [|auto].
      destruct (run_dom _ _ _ _ H1 Hk1); auto.
    + intros (c1 & H1 & Hw)%bind_Done Hk.
      destruct (IH _ Hw Hk) as [Hk1|?]; [|auto].
      destruct (run_dom _ _ _ _ H1 Hk1); auto.
Qed.

End connection_facts.

Lemma step_awaiting (k : Key) (cl : stdioConnection.call)
    (c c' : stdioConnection.t) :
  stdioConnection.awaiting k c →
  stdioConnection.no_response_for k [cl] →
  stdioConnection.step cl c = Done c' →
  stdioConnection.awaiting k c'.
Proof.
  unfold stdioConnection.awaiting, stdioConnection.no_response_for.
  intros Hk Hno. destruct cl as [| |msg|msg|id]; simpl.
  - intros [= <-]. by rewrite Start_responses.
  - intros (r & Hr & [= <-])%bind_Done. by rewrite (Stop_responses _ _ Hr).
  - intros (r & Hr & [= <-])%bind_Done.
    destruct (SendMessage_responses _ _ _ Hr) as [->|(_ & k' & _ & ->)]; [done|].
    destruct (decide (k' = k)) as [->|Hne].
    + right. apply lookup_insert_eq.
    + by rewrite lookup_insert_ne.
  - intros Hh. destruct (handleResponse_responses _ _ _ Hh)
      as [->|(Hr & k' & Hk' & _ & ->)]; [done|].
    rewrite lookup_insert_ne; [done|]. intros ->.
    by apply (Hno msg); [apply list_elem_of_singleton|..].
  - intros (k' & _ & ->)%cleanup_responses.
    destruct (decide (k' = k)) as [->|Hne].
    + left. apply lookup_delete_eq.
    + by rewrite lookup_delete_ne.
Qed.

Lemma run_awaiting (k : Key) (calls : list stdioConnection.call)
    (c c' : stdioConnection.t) :
  stdioConnection.awaiting k c →
  stdioConnection.no_response_for k calls →
  stdioConnection.run calls c = Done c' →
  stdioConnection.awaiting k c'.
Proof.
  revert c. induction calls as [|cl calls IH]; intros c Hk Hno; simpl.
  - by intros [= <-].
  - intros (c1 & H1 & Hrun)%bind_Done. apply (IH c1); [| |done].
    + apply (step_awaiting k cl c); [done| |done].
      intros msg Hin%list_elem_of_singleton. subst cl.
      apply Hno, elem_of_cons. by left.
    + intros msg Hin. apply Hno, elem_of_cons. by right.
Qed.

Lemma WaitForResponse_timeout (id : value) (k : Key)
    (sched : list stdioConnection.slot) (c c' : stdioConnection.t) :
  hashKey id = Some k →
  stdioConnection.awaiting k c →
  (∀ sl, sl ∈ sched →
         stdioConnection.no_response_for k (stdioConnection.during_sleep sl)) →
  stdioConnection.run (concat (stdioConnection.during_sleep <$> sched)) c = Done c' →
  stdioConnection.WaitForResponse id sched c = Done (None, c')
  ∧ stdioConnection.awaiting k c'.
Proof.
  intros Hid. revert c. induction sched as [|sl sched IH]; intros c Hk Hno.
  - simpl. intros [= <-]. done.
  - rewrite fmap_cons. cbn [concat]. rewrite run_app.
    intros (c1 & H1 & Hrun)%bind_Done.
    assert (stdioConnection.awaiting k c1) as Hk1.
    { apply (run_awaiting k (stdioConnection.during_sleep sl) c); [done| |done].
      apply Hno, elem_of_cons. by left. }
    assert (∀ sl', sl' ∈ sched →
              stdioConnection.no_response_for k (stdioConnection.during_sleep sl'))
      as Hno' by (intros sl' ?; apply Hno, elem_of_cons; by right).
    cbn [stdioConnection.WaitForResponse]. rewrite Hid.
    destruct Hk as [-> | ->]; rewrite H1; simpl; by apply IH.
Qed.

(** C6, as stated, fails: a wait that times out leaves the entry of its id in
    the table, the response that arrives afterwards is stored in it, and a
    second wait on the same id returns that late response. *)
Lemma late_response_is_returned_by_second_wait :
  stdioConnection.WaitForResponse (VString "tools-1")
    [Examples.idle; Examples.idle] Examples.conn0
  = Done (None, Examples.conn0)
  ∧ stdioConnection.responses Examples.conn0 !! KString "tools-1" = Some None
  ∧ stdioConnection.handleResponse Examples.lateResponse Examples.conn0
    = Done Examples.conn1
  ∧ stdioConnection.WaitForResponse (VString "tools-1") [Examples.idle]
      Examples.conn1
    = Done (Some Examples.lateResponse,
            stdioConnection.set_responses
              (delete (KString "tools-1")
                 (stdioConnection.responses Examples.conn1))
              Examples.conn1).
Proof. repeat split; vm_compute; reflexivity. Qed.

(** C6 (amended): when no response for [id] is stored before the timeout
    elapses, [WaitForResponse] returns nil and changes nothing in the
    connection: the table is the one the other goroutines left, with the
    entry of [id] still without a response.  A response for [id] that then
    reaches [handleResponse] while the entry is there is stored in it, and a
    later [WaitForResponse] on [id] returns that response and deletes the
    entry. *)
Theorem wait_timeout_then_late_response (id : value) (k : Key) :
  hashKey id = Some k →
  (∀ sched c c',
     stdioConnection.awaiting k c →
     (∀ sl, sl ∈ sched →
        stdioConnection.no_response_for k (stdioConnection.during_sleep sl)) →
     stdioConnection.run (concat (stdioConnection.during_sleep <$> sched)) c
     = Done c' →
     stdioConnection.WaitForResponse id sched c = Done (None, c')
     ∧ stdioConnection.awaiting k c')
  ∧ (∀ c late sl sched c1,
     stdioConnection.responses c !! k = Some None →
     IsResponse late = true → hashKey (ID late) = Some k →
     stdioConnection.run (stdioConnection.before_cleanup sl)
       (stdioConnection.set_responses
          (<[k := Some late]> (stdioConnection.responses c)) c) = Done c1 →
     stdioConnection.handleResponse late c
     = Done (stdioConnection.set_responses
               (<[k := Some late]> (stdioConnection.responses c)) c)
     ∧ stdioConnection.WaitForResponse id (sl :: sched)
         (stdioConnection.set_responses
            (<[k := Some late]> (stdioConnection.responses c)) c)
       = Done (Some late,
               stdioConnection.set_responses
                 (delete k (stdioConnection.responses c1)) c1)).
Proof.
  intros Hid. split.
  - intros sched c c'. by apply WaitForResponse_timeout.
  - intros c late sl sched c1 Hk Hr Hl Hrun. split.
    + unfold stdioConnection.handleResponse. by rewrite Hr, Hl, Hk.
    + simpl. rewrite Hid. simpl. rewrite lookup_insert_eq, Hrun. simpl.
      unfold stdioConnection.cleanup. by rewrite Hid.
Qed.

Lemma wait_timeout_then_late_response_witness :
  stdioConnection.WaitForResponse (VString "tools-1")
    [Examples.idle; Examples.idle] Examples.conn0
  = Done (None, Examples.conn0)
  ∧ stdioConnection.WaitForResponse (VString "tools-1") [Examples.idle]
      Examples.conn1
    = Done (Some Examples.lateResponse,
            stdioConnection.set_responses
              (delete (KString "tools-1")
                 (stdioConnection.responses Examples.conn1))
              Examples.conn1).
Proof.
  destruct (wait_timeout_then_late_response (VString "tools-1") (KString "tools-1"))
    as [Hfirst Hsecond]; [reflexivity|].
  split.
  - apply (Hfirst [Examples.idle; Examples.idle] Examples.conn0 Examples.conn0).
    + right. vm_compute. reflexivity.
    + intros sl Hsl msg Hin.
      assert (stdioConnection.during_sleep sl = []) as Hs
        by (set_unfold in Hsl; destruct Hsl as [->|[->|[]]]; reflexivity).
      rewrite Hs in Hin. by apply elem_of_nil in Hin.
    + reflexivity.
  - apply (Hsecond Examples.conn0 Examples.lateResponse Examples.idle []
             Examples.conn1).
    + vm_compute. reflexivity.
    + reflexivity.
    + reflexivity.
    + vm_compute. reflexivity.
Defined.

(** C10: in every execution of the stdio connection, each key of the pending
    table was registered by a [SendMessage] called with a request; this also
    holds across [WaitForResponse].  [handleResponse] leaves the connection
    as it is on a response whose id has no entry, and on every message that
    is not a response. *)
Theorem pending_keys_were_registered :
  (∀ (w : Writer) calls c k,
     stdioConnection.run calls (stdioConnection.newStdioConnection w) = Done c →
     k ∈ dom (stdioConnection.responses c) →
     stdioConnection.registered calls k)
  ∧ (∀ id sched c r c' k,
     stdioConnection.WaitForResponse id sched c = Done (r, c') →
     k ∈ dom (stdioConnection.responses c') →
     k ∈ dom (stdioConnection.responses c)
     ∨ stdioConnection.registered (stdioConnection.calls_of sched) k)
  ∧ (∀ msg c k,
     IsResponse msg = true → hashKey (ID msg) = Some k →
     stdioConnection.responses c !! k = None →
     stdioConnection.handleResponse msg c = Done c)
  ∧ (∀ msg c,
     IsResponse msg = false → stdioConnection.handleResponse msg c = Done c).
Proof.
  split; [|split; [|split]].
  - intros w calls c k Hrun Hk.
    destruct (run_dom _ _ _ _ Hrun Hk) as [Hk0|?]; [|done].
    simpl in Hk0. set_solver.
  - intros id sched c r c' k. apply WaitForResponse_dom.
  - intros msg c k Hr Hk Hnone. unfold stdioConnection.handleResponse.
    by rewrite Hr, Hk, Hnone.
  - intros msg c Hr. unfold stdioConnection.handleResponse. by rewrite Hr.
Qed.

Lemma pending_keys_were_registered_witness :
  stdioConnection.registered
    [stdioConnection.CallStart; stdioConnection.CallSendMessage Examples.toolsList]
    (KString "tools-1")
  ∧ stdioConnection.handleResponse Examples.lateResponse
      (stdioConnection.newStdioConnection Examples.stdout)
    = Done (stdioConnection.newStdioConnection Examples.stdout)
  ∧ stdioConnection.handleResponse Examples.toolsList Examples.conn0
    = Done Examples.conn0.
Proof.
  destruct pending_keys_were_registered as (Hreg & _ & Hunknown & Hother).
  split; [|split].
  - apply (Hreg Examples.stdout _ Examples.conn0); [reflexivity|].
    apply elem_of_dom. exists None. vm_compute. reflexivity.
  - apply (Hunknown Examples.lateResponse _ (KString "tools-1")); reflexivity.
  - apply (Hother Examples.toolsList Examples.conn0). reflexivity.
Defined.

(** * Further results *)

(** ** Messages built by the constructors *)

(** X1: a message built by [NewErrorResponse] always passes [Validate] and is
    never a request or a notification; it is a response exactly when its id
    is not nil.  A message built by [NewResponse] passes [Validate] exactly
    when its result is not nil, and is a response exactly when neither its
    result nor its id is nil. *)
Theorem built_responses_classification (id : value) (code : Z) (text : string)
    (data result : any) :
  Validate (NewErrorResponse id code text data) = None
  ∧ IsResponse (NewErrorResponse id code text data) = negb (id_nil id)
  ∧ IsRequest (NewErrorResponse id code text data) = false
  ∧ IsNotification (NewErrorResponse id code text data) = false
  ∧ (Validate (NewResponse id result) = None ↔ is_nil result = false)
  ∧ IsResponse (NewResponse id result) = negb (is_nil result) && negb (id_nil id)
  ∧ IsRequest (NewResponse id result) = false
  ∧ IsNotification (NewResponse id result) = false.
Proof.
  repeat split; try reflexivity.
  - unfold Validate. simpl. by destruct (is_nil result).
  - unfold Validate. simpl. by intros ->.
  - unfold IsResponse. simpl. by destruct (is_nil result), (id_nil id).
Qed.

Section constructors_facts.
Context {P : Type} (Marshal : P → error + RawMessage).

(** X2: whatever [json.Marshal] makes of the params, [NewRequest] builds a
    message that passes [Validate] exactly when the method is not empty, that
    is never a response, and that is a request when the id is not nil and a
    notification when it is nil; [NewNotification] builds a notification
    exactly when the method is not empty.  With a non-empty method exactly
    one of the three predicates holds on either message. *)
Theorem built_requests_classification (id : value) (method : string)
    (params : P) :
  (Validate (NewRequest Marshal id method params) = None ↔ method ≠ "")
  ∧ IsRequest (NewRequest Marshal id method params)
    = bool_decide (method ≠ "") && negb (id_nil id)
  ∧ IsNotification (NewRequest Marshal id method params)
    = bool_decide (method ≠ "") && id_nil id
  ∧ IsResponse (NewRequest Marshal id method params) = false
  ∧ (Validate (NewNotification Marshal method params) = None ↔ method ≠ "")
  ∧ IsNotification (NewNotification Marshal method params)
    = bool_decide (method ≠ "")
  ∧ IsRequest (NewNotification Marshal method params) = false
  ∧ IsResponse (NewNotification Marshal method params) = false
  ∧ (method ≠ "" →
     exactly_one (IsRequest (NewRequest Marshal id method params))
       (IsResponse (NewRequest Marshal id method params))
       (IsNotification (NewRequest Marshal id method params)) = true
     ∧ exactly_one (IsRequest (NewNotification Marshal method params))
         (IsResponse (NewNotification Marshal method params))
         (IsNotification (NewNotification Marshal method params)) = true).
Proof.
  assert (∀ m : Message,
            JSONRPC m = JSONRPCVersion → Result m = nil → Error m = None →
            (Validate m = None ↔ Method m ≠ "")) as Hvalid.
  { intros m Hv Hr He. rewrite Validate_pass, Hr, He. simpl.
    rewrite !andb_true_r, bool_decide_eq_false. naive_solver. }
  split; [by apply Hvalid|]. do 3 (split; [reflexivity|]).
  split; [by apply Hvalid|].
  split; [unfold IsNotification; simpl; by rewrite andb_true_r|].
  split; [unfold IsRequest; simpl; by rewrite andb_false_r|].
  split; [reflexivity|].
  intros Hm. unfold IsRequest, IsResponse, IsNotification. simpl.
  rewrite (bool_decide_eq_true_2 _ Hm). by destruct (id_nil id).
Qed.

End constructors_facts.

Lemma built_requests_classification_witness :
  exactly_one (IsRequest (NewRequest (λ _ : unit, inr None) (VString "1") "ping" ()))
    (IsResponse (NewRequest (λ _ : unit, inr None) (VString "1") "ping" ()))
    (IsNotification (NewRequest (λ _ : unit, inr None) (VString "1") "ping" ()))
  = true.
Proof.
  destruct (built_requests_classification (λ _ : unit, inr None) (VString "1")
              "ping" ()) as (_ & _ & _ & _ & _ & _ & _ & _ & Hone).
  apply Hone. discriminate.
Defined.

(** ** Lookup and dispatch in the tool manager *)

Lemma firstNamed_None (name : string) (ts : list Tool) :
  Manager.firstNamed name ts = None ↔ name ∉ Name <$> ts.
Proof.
  induction ts as [|tool ts IH]; simpl.
  - split; [set_solver | done].
  - case_bool_decide as Hn.
    + split; [done | set_solver].
    + rewrite IH. set_solver.
Qed.

Lemma firstNamed_Some (name : string) (ts : list Tool) (t : Tool) :
  Manager.firstNamed name ts = Some t → Name t = name ∧ t ∈ ts.
Proof.
  induction ts as [|tool ts IH]; simpl; [done|].
  case_bool_decide as Hn.
  - intros [= <-]. split; [done | set_solver].
  - intros [? ?]%IH. split; [done | set_solver].
Qed.

Lemma firstNamed_app (name : string) (l1 l2 : list Tool) :
  Manager.firstNamed name (l1 ++ l2)
  = match Manager.firstNamed name l1 with
    | Some t => Some t
    | None => Manager.firstNamed name l2
    end.
Proof.
  induction l1 as [|tool l1 IH]; simpl; [done|]. by case_bool_decide.
Qed.

Lemma firstNamed_undeclared (groups : Group → Provider.t) (g : Group)
    (x : string) :
  ¬ ToolManager.declares groups g x →
  Manager.firstNamed x (Provider.GetTools (groups g)) = None.
Proof. intros Hd. by apply firstNamed_None. Qed.

(** X3: [ExecuteTool] of the manager [NewToolManager] builds hands a call to
    the last group, in registration order, that declares the name, with the
    name and the arguments unchanged, and returns that group's answer; when
    no group declares the name it returns the not-found error without
    calling any group. *)
Theorem ExecuteTool_dispatches_to_last (groups : Group → Provider.t)
    (x : string) (arguments : GoMap) :
  (∀ g,
     ToolManager.declares groups g x →
     (∀ g', ToolManager.declares groups g' x → (rank g' ≤ rank g)%nat) →
     ToolManager.ExecuteTool (ToolManager.NewToolManager groups) x arguments
     = Provider.ExecuteTool (groups g) x arguments)
  ∧ ((∀ g, ¬ ToolManager.declares groups g x) →
     ToolManager.ExecuteTool (ToolManager.NewToolManager groups) x arguments
     = (None, Some ("工具未找到: " ++ x))).
Proof.
  split.
  - intros g Hd Hmax. unfold ToolManager.ExecuteTool.
    by rewrite (proj2 (NewToolManager_binds_last groups x g) (conj Hd Hmax)).
  - intros Hnone. apply ExecuteTool_unknown.
    rewrite NewToolManager_lookup.
    repeat case_decide; try done; exfalso; eapply Hnone; eassumption.
Qed.

Lemma ExecuteTool_dispatches_to_last_witness :
  ToolManager.ExecuteTool Examples.manager "hash" None
  = Examples.answer "data" "hash" None.
Proof.
  destruct (ExecuteTool_dispatches_to_last Examples.groups "hash" None)
    as [Hlast _].
  apply (Hlast dataTools).
  - unfold ToolManager.declares; simpl; repeat constructor.
  - intros [] Hd; simpl; try lia; unfold ToolManager.declares in Hd;
      simpl in Hd; set_solver.
Defined.

Lemma NewToolManager_lookup_None (groups : Group → Provider.t) (x : string) :
  toolMap (ToolManager.NewToolManager groups) !! x = None
  ↔ ∀ g, ¬ ToolManager.declares groups g x.
Proof.
  rewrite NewToolManager_lookup. split.
  - intros Hn []; repeat case_decide; done.
  - intros Hn. repeat case_decide; try done; exfalso; eapply Hn; eassumption.
Qed.

Lemma GetTool_None (groups : Group → Provider.t) (x : string) :
  Manager.GetTool (ToolManager.NewToolManager groups) x = None
  ↔ ∀ g, ¬ ToolManager.declares groups g x.
Proof.
  unfold Manager.GetTool, ToolManager.GetTools, ToolManager.declares. simpl.
  rewrite firstNamed_None, !fmap_app, !not_elem_of_app. split.
  - intros (? & ? & ? & ? & ?) []; done.
  - intros Hn. repeat split; apply Hn.
Qed.

(** X4: [GetTool] of the manager finds a tool exactly for the names the
    registry binds, and the tool it returns carries the name asked for and
    is one of [GetTools]; but it is the first tool of that name in the first
    group that declares it, while [ExecuteTool] dispatches to the last such
    group. *)
Theorem GetTool_agrees_with_registry (groups : Group → Provider.t) (x : string) :
  (is_Some (Manager.GetTool (ToolManager.NewToolManager groups) x)
   ↔ is_Some (toolMap (ToolManager.NewToolManager groups) !! x))
  ∧ (∀ t, Manager.GetTool (ToolManager.NewToolManager groups) x = Some t →
          Name t = x ∧ t ∈ ToolManager.GetTools (ToolManager.NewToolManager groups))
  ∧ (∀ g,
       ToolManager.declares groups g x →
       (∀ g', ToolManager.declares groups g' x → (rank g ≤ rank g')%nat) →
       Manager.GetTool (ToolManager.NewToolManager groups) x
       = Manager.firstNamed x (Provider.GetTools (groups g))
       ∧ is_Some (Manager.firstNamed x (Provider.GetTools (groups g)))).
Proof.
  split; [|split].
  - rewrite <- !not_eq_None_Some, GetTool_None, NewToolManager_lookup_None. done.
  - intros t Ht. by apply firstNamed_Some in Ht.
  - intros g Hd Hmin.
    assert (∀ g', (rank g' < rank g)%nat →
              Manager.firstNamed x (Provider.GetTools (groups g')) = None)
      as Hearly.
    { intros g' Hlt. apply firstNamed_undeclared. intros Hd'.
      apply Hmin in Hd'. lia. }
    assert (is_Some (Manager.firstNamed x (Provider.GetTools (groups g))))
      as [t Ht].
    { rewrite <- not_eq_None_Some, firstNamed_None. by intros ?. }
    split; [|by rewrite Ht].
    unfold Manager.GetTool, ToolManager.GetTools. simpl.
    rewrite !firstNamed_app.
    destruct g; simpl in Hearly;
      rewrite ?(Hearly systemTools), ?(Hearly networkTools),
        ?(Hearly dataTools), ?(Hearly databaseTools) by (simpl; lia);
      simpl; by rewrite ?Ht.
Qed.

Lemma GetTool_agrees_with_registry_witness :
  Manager.GetTool Examples.manager "hash" = Some (Examples.tool "hash")
  ∧ toolMap Examples.manager !! "hash" = Some dataTools.
Proof.
  destruct (GetTool_agrees_with_registry Examples.groups "hash")
    as (_ & _ & Hfirst).
  destruct (Hfirst systemTools) as [Hg _].
  - unfold ToolManager.declares; simpl; repeat constructor.
  - intros g' _. simpl. lia.
  - split; [exact Hg | reflexivity].
Defined.

(** ** The tool table of a server *)

(** X5: [RegisterTool] refuses a tool with an empty name and leaves the
    server as it was; any other tool is stored under its name, replacing a
    tool registered under that name before, with the tools of other names and
    the session fields untouched.  [GetTool] then returns the tool, and a
    table in which every tool sits under its own non-empty name stays so. *)
Theorem RegisterTool_round_trip (tool : Tool) (s : BaseServer) :
  (Name tool = "" →
   BaseServer.RegisterTool tool s = (Some "tool name cannot be empty", s))
  ∧ (Name tool ≠ "" →
     ∃ s', BaseServer.RegisterTool tool s = (None, s')
       ∧ BaseServer.GetTool (Name tool) s' = Some tool
       ∧ (∀ name, name ≠ Name tool →
            BaseServer.GetTool name s' = BaseServer.GetTool name s)
       ∧ initialized s' = initialized s ∧ clientInfo s' = clientInfo s
       ∧ toolExecutor s' = toolExecutor s ∧ capabilities s' = capabilities s
       ∧ ((∀ name t, BaseServer.GetTool name s = Some t →
                     Name t = name ∧ name ≠ "") →
          ∀ name t, BaseServer.GetTool name s' = Some t →
                    Name t = name ∧ name ≠ "")).
Proof.
  unfold BaseServer.RegisterTool, BaseServer.GetTool. split.
  - intros Hn. by rewrite bool_decide_eq_true_2.
  - intros Hn. rewrite bool_decide_eq_false_2 by done.
    eexists. split; [reflexivity|]. simpl.
    split; [apply lookup_insert_eq|].
    split; [intros name Hne; by rewrite lookup_insert_ne|].
    do 4 (split; [reflexivity|]).
    intros Hkeyed name t. destruct (decide (Name tool = name)) as [<-|Hne].
    + rewrite lookup_insert_eq. by intros [= <-].
    + rewrite lookup_insert_ne by done. apply Hkeyed.
Qed.

Lemma RegisterTool_round_trip_witness :
  ∃ s', BaseServer.RegisterTool (Examples.tool "hash") BaseServer.NewBaseServer
        = (None, s')
    ∧ BaseServer.GetTool "hash" s' = Some (Examples.tool "hash").
Proof.
  destruct (RegisterTool_round_trip (Examples.tool "hash") BaseServer.NewBaseServer)
    as [_ Hok].
  destruct Hok as (s' & Hr & Hg & _); [discriminate|].
  exists s'. split; assumption.
Defined.

(** X6: [GetTools] of a server lists exactly the tools of its table, one per
    registered name; when every tool sits under its own name the listed
    names are pairwise distinct. *)
Theorem GetTools_lists_the_table (s : BaseServer) :
  (∀ tool, tool ∈ BaseServer.GetTools s
           ↔ ∃ name, BaseServer.GetTool name s = Some tool)
  ∧ length (BaseServer.GetTools s) = size (tools s)
  ∧ ((∀ name t, BaseServer.GetTool name s = Some t → Name t = name) →
     NoDup (Name <$> BaseServer.GetTools s)).
Proof.
  unfold BaseServer.GetTools, BaseServer.GetTool. split; [|split].
  - intros tool. rewrite list_elem_of_fmap. split.
    + intros ([name t] & -> & Hin%elem_of_map_to_list). eauto.
    + intros (name & Hl). exists (name, tool). split; [done|].
      by apply elem_of_map_to_list.
  - by rewrite length_fmap, length_map_to_list.
  - intros Hkeyed.
    assert (Name <$> (map_to_list (tools s)).*2 = (map_to_list (tools s)).*1) as ->.
    { rewrite <- list_fmap_compose. apply list_fmap_ext.
      intros i [name t] Hin%list_elem_of_lookup_2%elem_of_map_to_list. simpl.
      by apply Hkeyed. }
    apply NoDup_fst_map_to_list.
Qed.

Lemma GetTools_lists_the_table_witness :
  NoDup (Name <$> BaseServer.GetTools Examples.ws0).
Proof.
  destruct (GetTools_lists_the_table Examples.ws0) as (_ & _ & Hnodup).
  apply Hnodup. intros name t.
  unfold BaseServer.GetTool. vm_compute tools.
  intros Hl. apply elem_of_map_to_list in Hl. vm_compute in Hl.
  set_unfold in Hl. naive_solver.
Defined.

(** ** The servers [main] builds *)

Lemma registerAll_failed (ts : list Tool) (err : error) (b : BaseServer) :
  foldl (λ acc tool,
           match acc with
           | (Some err, b) => (Some err, b)
           | (None, b) =>
               match BaseServer.RegisterTool tool b with
               | (Some err, b) => (Some ("注册工具失败: " ++ err), b)
               | (None, b) => (None, b)
               end
           end) (Some err, b) ts = (Some err, b).
Proof. induction ts as [|tool ts IH]; simpl; [done | apply IH]. Qed.

Lemma registerAll_empty_name (ts : list Tool) (b : BaseServer) :
  (∃ tool, tool ∈ ts ∧ Name tool = "") →
  ∃ b', registerAll ts b
        = (Some "注册工具失败: tool name cannot be empty", b').
Proof.
  unfold registerAll. revert b.
  induction ts as [|tool ts IH]; intros b (t & Hin & Hn); [set_solver|].
  simpl. unfold BaseServer.RegisterTool at 2.
  destruct (decide (Name tool = "")) as [He|Hne].
  - rewrite bool_decide_eq_true_2 by done. rewrite registerAll_failed. eauto.
  - rewrite bool_decide_eq_false_2 by done. apply IH.
    exists t. split; [|done]. set_unfold in Hin. naive_solver.
Qed.

Lemma registerAll_named (ts : list Tool) (b : BaseServer) :
  (∀ tool, tool ∈ ts → Name tool ≠ "") →
  ∃ b', registerAll ts b = (None, b')
    ∧ initialized b' = initialized b ∧ clientInfo b' = clientInfo b
    ∧ toolExecutor b' = toolExecutor b ∧ capabilities b' = capabilities b
    ∧ ∀ x, tools b' !! x
           = match Manager.firstNamed x (reverse ts) with
             | Some t => Some t
             | None => tools b !! x
             end.
Proof.
  unfold registerAll. revert b.
  induction ts as [|tool ts IH]; intros b Hnamed; simpl.
  - exists b. done.
  - unfold BaseServer.RegisterTool at 2.
    rewrite bool_decide_eq_false_2 by (apply Hnamed; set_solver).
    destruct (IH (mkBaseServer (<[Name tool:=tool]> (tools b)) (toolExecutor b)
                    (initialized b) (clientInfo b) (capabilities b)))
      as (b' & -> & ? & ? & ? & ? & Hl); [intros; apply Hnamed; set_solver|].
    exists b'. repeat (split; [done|]).
    intros x. rewrite Hl, reverse_cons, firstNamed_app. simpl.
    destruct (Manager.firstNamed x (reverse ts)); [done|].
    case_bool_decide as Hx.
    + subst x. apply lookup_insert_eq.
    + by rewrite lookup_insert_ne.
Qed.

(** X7: [createStdioServer] and [createWebSocketServer] fail, with the same
    registration error, exactly when the manager lists a tool with an empty
    name.  Otherwise both build the same uninitialized server state: the
    executor is the manager, and the table binds each listed name to the last
    tool of that name in [GetTools] of the manager, so it binds exactly the
    names the registry binds. *)
Theorem created_servers (groups : Group → Provider.t) (w : Writer) :
  let tm := ToolManager.NewToolManager groups in
  ((∃ tool, tool ∈ ToolManager.GetTools tm ∧ Name tool = "") →
   createStdioServer w tm = inl "注册工具失败: tool name cannot be empty"
   ∧ createWebSocketServer tm = inl "注册工具失败: tool name cannot be empty")
  ∧ ((∀ tool, tool ∈ ToolManager.GetTools tm → Name tool ≠ "") →
     ∃ b, createWebSocketServer tm = inr b
       ∧ createStdioServer w tm = inr (mkStdioServer b w false false)
       ∧ initialized b = false ∧ clientInfo b = None
       ∧ toolExecutor b = Some (ToolManager.ExecuteTool tm)
       ∧ (∀ x, tools b !! x
               = Manager.firstNamed x (reverse (ToolManager.GetTools tm)))
       ∧ (∀ x, is_Some (tools b !! x) ↔ is_Some (toolMap tm !! x))).
Proof.
  intros tm. split.
  - intros Hempty. unfold createStdioServer, createWebSocketServer. simpl.
    destruct (registerAll_empty_name _ BaseServer.NewBaseServer Hempty)
      as (b' & ->). done.
  - intros Hnamed.
    destruct (registerAll_named _ BaseServer.NewBaseServer Hnamed)
      as (b' & Hr & Hi & Hc & He & Hcap & Hl).
    assert (∀ x, tools b' !! x
                 = Manager.firstNamed x (reverse (ToolManager.GetTools tm)))
      as Hl'.
    { intros x. rewrite Hl. simpl. rewrite lookup_empty.
      by destruct (Manager.firstNamed x _). }
    assert (∀ x, is_Some (tools b' !! x) ↔ is_Some (toolMap tm !! x)) as Hdom.
    { intros x. unfold tm in *.
      rewrite Hl', <- !not_eq_None_Some, NewToolManager_lookup_None,
        <- GetTool_None.
      unfold Manager.GetTool.
      by rewrite !firstNamed_None, fmap_reverse, elem_of_reverse. }
    exists (BaseServer.SetToolExecutor (ToolManager.ExecuteTool tm) b').
    unfold createStdioServer, createWebSocketServer.
    change (base (StdioServer.NewStdioServer w)) with BaseServer.NewBaseServer.
    rewrite Hr. repeat split; try done; by apply Hdom.
Qed.

Lemma created_servers_witness :
  createWebSocketServer Examples.manager = inr Examples.ws0
  ∧ tools Examples.ws0 !! "hash" = Some (Examples.tool "hash")
  ∧ tools Examples.ws0 !! "nonexistent_tool" = None.
Proof.
  destruct (created_servers Examples.groups Examples.stdout) as [_ Hok].
  destruct Hok as (b & Hb & _ & _ & _ & _ & Hl & _).
  - intros tool Hin. vm_compute in Hin.
    repeat (apply elem_of_cons in Hin as [->|Hin]; [discriminate|]).
    by apply elem_of_nil in Hin.
  - assert (b = Examples.ws0) as ->.
    { unfold Examples.ws0. fold Examples.manager in Hb. by rewrite Hb. }
    split; [reflexivity|]. split; rewrite Hl; reflexivity.
Defined.

(** ** More of the session handlers *)

Section session_more.
Context {golib : GoLib}.


(** X9: an [initialize] frame on an uninitialized WebSocket session always
    succeeds, also when its params are missing or do not decode: the reply is
    the fixed result, the session becomes initialized and the tool table, the
    executor and the capabilities stay.  [clientInfo] is replaced only when
    the params are an object whose clientInfo is an object with a string
    name, and then by that name with an empty version; otherwise the previous
    [clientInfo] is kept. *)
Theorem websocket_initialize (msg : Message) (s : BaseServer) :
  Method msg = "initialize" → initialized s = false →
  ∃ s',
    WebSocketServer.handleMessage (inr msg) s
    = (Some (WebSocketServer.resultMessage (ID msg)
               (Dyn (VMap {[
                  "protocolVersion" := VString "2024-11-05";
                  "capabilities" := VMap {[ "tools" := VMap ∅ ]};
                  "serverInfo" := VMap {[ "name" := VString "mcp-ai-websocket";
                                          "version" := VString "1.0.0" ]} ]}))),
       None, s')
    ∧ initialized s' = true ∧ tools s' = tools s
    ∧ toolExecutor s' = toolExecutor s ∧ capabilities s' = capabilities s
    ∧ clientInfo s'
      = match UnmarshalMap (Params msg) with
        | inr params =>
            match assert_map (index params "clientInfo") with
            | Some info =>
                match assert_string (info !! "name") with
                | Some name => Some (mkClientInfo name "")
                | None => clientInfo s
                end
            | None => clientInfo s
            end
        | inl _ => clientInfo s
        end.
Proof.
  intros Hm Hi. rewrite handleMessage_initialize by done.
  unfold WebSocketServer.handleInitialize. rewrite Hi.
  eexists. split; [reflexivity|].
  destruct (UnmarshalMap (Params msg)) as [err|params]; [done|].
  destruct (assert_map (index params "clientInfo")) as [info|]; [|done].
  by destruct (assert_string (info !! "name")).
Qed.



End session_more.



Lemma websocket_initialize_witness :
  ∃ s', (WebSocketServer.handleMessage (golib := Reference.lib)
           (inr Examples.initialize) Examples.ws0).2 = s'
    ∧ initialized s' = true
    ∧ clientInfo s' = Some (mkClientInfo "t" "").
Proof.
  destruct (websocket_initialize (golib := Reference.lib) Examples.initialize
              Examples.ws0) as (s' & Hr & Hi & _ & _ & _ & Hc);
    [reflexivity..|].
  exists s'. split; [by rewrite Hr|]. split; [exact Hi|]. exact Hc.
Defined.


(** ** Tool calls from the session to the providers *)

Section dispatch.
Context {golib : GoLib}.


End dispatch.


(** ** The message loop of the stdio server *)

Section stdio_loop.
Context {golib : GoLib}.

Lemma sendMessage_effect (r : Message) (s s' : StdioServer) (e : option error) :
  StdioServer.sendMessage r s = (e, s') →
  base s' = base s ∧ stopSpawned s' = stopSpawned s ∧ cancelled s' = cancelled s
  ∧ ∃ out, written (writer s') = (written (writer s) ++ out)%list
           ∧ (length out ≤ 1)%nat.
Proof.
  unfold StdioServer.sendMessage, Write.
  destruct (outcomes (writer s)) as [|[err|] rest]; intros [= <- <-]; simpl;
    repeat split;
    first [ exists [r]; split; [reflexivity | simpl; lia]
          | exists []; rewrite app_nil_r; split; [reflexivity | simpl; lia] ].
Qed.

Lemma handleMessage_served (msg : Message) (s : StdioServer) :
  served s (StdioServer.handleMessage msg s).2.
Proof.
  assert (∀ r f, (∀ b, tools (f b) = tools b ∧ toolExecutor (f b) = toolExecutor b
                       ∧ capabilities (f b) = capabilities b
                       ∧ (initialized b = true → initialized (f b) = true)) →
            served s (StdioServer.sendMessage r (with_base f s)).2) as Hsend.
  { intros r f Hf.
    destruct (StdioServer.sendMessage r (with_base f s)) as [e s'] eqn:Hs.
    apply sendMessage_effect in Hs as (Hb & Hsp & Hc & Hout).
    destruct (Hf (base s)) as (? & ? & ? & ?).
    unfold served. simpl in *. rewrite Hb, Hsp, Hc. done. }
  assert (∀ r, served s (StdioServer.sendMessage r s).2) as Hsend0.
  { intros r. apply (Hsend r (λ b, b)). done. }
  assert (served s s) as Hrefl.
  { unfold served. repeat split; try done. exists []. rewrite app_nil_r.
    split; [done | simpl; lia]. }
  unfold StdioServer.handleMessage, StdioServer.handleRequest,
    StdioServer.handleInitialize, StdioServer.handleToolsList,
    StdioServer.handleToolCall, StdioServer.handleResourceRead,
    StdioServer.handleShutdown, StdioServer.handleNotification,
    StdioServer.sendError, StdioServer.sendResponse.
  repeat case_match; simplify_eq; simpl; try done; try apply Hsend0.
  - apply (Hsend _ (λ b, set_initialized true
                           (set_clientInfo (InitializeParams_ClientInfo i) b))).
    done.
  - match goal with
    | Hs : StdioServer.sendMessage _ _ = _ |- _ =>
        apply sendMessage_effect in Hs as (Hb & Hsp & Hc & Hout)
    end.
    unfold served. rewrite Hb, Hsp, Hc. done.
  - match goal with
    | Hs : StdioServer.sendMessage _ _ = _ |- _ =>
        apply sendMessage_effect in Hs as (Hb & Hsp & Hc & Hout)
    end.
    unfold served. simpl. rewrite Hb, Hc. done.
Qed.

Lemma served_trans (s1 s2 s3 : StdioServer) (n : nat) :
  served s1 s2 →
  (tools (base s3) = tools (base s2)
   ∧ toolExecutor (base s3) = toolExecutor (base s2)
   ∧ capabilities (base s3) = capabilities (base s2)
   ∧ (initialized (base s2) = true → initialized (base s3) = true)
   ∧ (stopSpawned s2 = true → stopSpawned s3 = true)
   ∧ (cancelled s2 = true → cancelled s3 = true)
   ∧ ∃ out, written (writer s3) = (written (writer s2) ++ out)%list
            ∧ (length out ≤ n)%nat) →
  tools (base s3) = tools (base s1)
  ∧ toolExecutor (base s3) = toolExecutor (base s1)
  ∧ capabilities (base s3) = capabilities (base s1)
  ∧ (initialized (base s1) = true → initialized (base s3) = true)
  ∧ (stopSpawned s1 = true → stopSpawned s3 = true)
  ∧ (cancelled s1 = true → cancelled s3 = true)
  ∧ ∃ out, written (writer s3) = (written (writer s1) ++ out)%list
           ∧ (length out ≤ S n)%nat.
Proof.
  intros (Ht & He & Hc & Hi & Hs & Hcan & out1 & Hw1 & Hl1)
    (Ht' & He' & Hc' & Hi' & Hs' & Hcan' & out2 & Hw2 & Hl2).
  repeat split; try congruence; try tauto.
  - intros ?. apply Hcan'. congruence.
  - exists (out1 ++ out2)%list. rewrite Hw2, Hw1, <- app_assoc, length_app.
    split; [done | lia].
Qed.

(** X13: however long the stdio server runs its message loop, it never
    changes its tool table, executor or capabilities, an initialized session
    stays initialized (nothing in the stdio server resets the flag), a
    cancelled context stays cancelled, and the output only grows, by at most
    one message per decoded message. *)
Theorem stdio_loop_invariants (events : list StdioLoop.event) (s : StdioServer) :
  tools (base (StdioLoop.handleMessages events s)) = tools (base s)
  ∧ toolExecutor (base (StdioLoop.handleMessages events s)) = toolExecutor (base s)
  ∧ capabilities (base (StdioLoop.handleMessages events s)) = capabilities (base s)
  ∧ (initialized (base s) = true →
     initialized (base (StdioLoop.handleMessages events s)) = true)
  ∧ (stopSpawned s = true → stopSpawned (StdioLoop.handleMessages events s) = true)
  ∧ (cancelled s = true → cancelled (StdioLoop.handleMessages events s) = true)
  ∧ ∃ out,
      written (writer (StdioLoop.handleMessages events s))
      = (written (writer s) ++ out)%list
      ∧ (length out ≤ length (StdioLoop.decodedMessages events))%nat.
Proof.
  revert s. induction events as [|ev events IH]; intros s.
  - simpl. repeat split; try done. exists []. by rewrite app_nil_r.
  - assert (∀ s', base s' = base s → writer s' = writer s →
                  stopSpawned s' = stopSpawned s → cancelled s' = true →
                  ∀ n, (length (StdioLoop.decodedMessages events) ≤ n)%nat →
                  tools (base (StdioLoop.handleMessages events s')) = tools (base s)
                  ∧ toolExecutor (base (StdioLoop.handleMessages events s'))
                    = toolExecutor (base s)
                  ∧ capabilities (base (StdioLoop.handleMessages events s'))
                    = capabilities (base s)
                  ∧ (initialized (base s) = true →
                     initialized (base (StdioLoop.handleMessages events s')) = true)
                  ∧ (stopSpawned s = true →
                     stopSpawned (StdioLoop.handleMessages events s') = true)
                  ∧ (cancelled s = true →
                     cancelled (StdioLoop.handleMessages events s') = true)
                  ∧ ∃ out,
                      written (writer (StdioLoop.handleMessages events s'))
                      = (written (writer s) ++ out)%list
                      ∧ (length out ≤ n)%nat) as Hstop.
    { intros s' Hb Hw Hsp Hcan n Hn.
      destruct (IH s') as (? & ? & ? & ? & ? & Hc' & out & ? & ?).
      rewrite <- Hb, <- Hw, <- Hsp. repeat split; try done.
      - intros _. by apply Hc'.
      - exists out. split; [done | lia]. }
    destruct ev as [[err|msg]| |]; simpl.
    + destruct (cancelled s) eqn:Hcan.
      * repeat split; try done. exists []. rewrite app_nil_r.
        split; [done | simpl; lia].
      * destruct (IH s) as (? & ? & ? & ? & ? & ? & ?). repeat split; done.
    + destruct (cancelled s) eqn:Hcan.
      * repeat split; try done. exists []. rewrite app_nil_r.
        split; [done | simpl; lia].
      * destruct (served_trans s (StdioServer.handleMessage msg s).2
                    (StdioLoop.handleMessages events
                       (StdioServer.handleMessage msg s).2)
                    (length (StdioLoop.decodedMessages events)))
          as (? & ? & ? & ? & ? & ? & ?);
          [apply handleMessage_served | apply IH |].
        repeat split; done.
    + destruct (stopSpawned s) eqn:Hsp.
      * destruct (Hstop (mkStdioServer (base s) (writer s) true true)) with
          (n := length (StdioLoop.decodedMessages events))
          as (? & ? & ? & ? & ? & ? & ?); try done.
      * destruct (IH s) as (? & ? & ? & ? & ? & ? & ?). repeat split; done.
    + apply Hstop; done.
Qed.

End stdio_loop.

Section stdio_shutdown.
Context {golib : GoLib}.



End stdio_shutdown.


(** ** Replies of the WebSocket server *)

Section websocket_replies.
Context {golib : GoLib}.

Lemma handleMessage_replies (message : error + Message) (s : BaseServer) :
  match message with
  | inl err =>
      WebSocketServer.handleMessage message s
      = (None, Some ("解析消息失败: " ++ err), s)
  | inr msg =>
      ∃ r s',
        WebSocketServer.handleMessage message s = (Some r, None, s')
        ∧ JSONRPC r = "2.0" ∧ ID r = ID msg ∧ Method r = ""
        ∧ (is_nil (Result r) = true ∨ Error r = None)
        ∧ tools s' = tools s ∧ toolExecutor s' = toolExecutor s
        ∧ capabilities s' = capabilities s
        ∧ initialized s'
          = (if String.eqb (Method msg) "initialize" then true
             else if String.eqb (Method msg) "shutdown" then false
             else initialized s)
  end.
Proof.
  destruct message as [err|msg]; [done|].
  unfold WebSocketServer.handleMessage.
  destruct (String.eqb_spec (Method msg) "initialize") as [Hm|_].
  { unfold WebSocketServer.handleInitialize.
    destruct (initialized s) eqn:Hi; eexists _, _; (split; [reflexivity|]);
      simpl; repeat split; auto.
    all: destruct (UnmarshalMap (Params msg)) as [?|params]; try done.
    all: destruct (assert_map (index params "clientInfo")) as [info|]; try done.
    all: by destruct (assert_string (info !! "name")). }
  destruct (String.eqb_spec (Method msg) "tools/list") as [Hm|_].
  { rewrite Hm. simpl. unfold WebSocketServer.handleToolsList.
    destruct (initialized s) eqn:Hi; eexists _, _; (split; [reflexivity|]);
      simpl; repeat split; auto. }
  destruct (String.eqb_spec (Method msg) "tools/call") as [Hm|_].
  { rewrite Hm. simpl. unfold WebSocketServer.handleToolCall.
    destruct (initialized s) eqn:Hi; simpl;
      [|eexists _, _; (split; [reflexivity|]); simpl; repeat split; auto].
    destruct (toolExecutor s) as [executor|] eqn:He;
      [|eexists _, _; (split; [reflexivity|]); simpl; repeat split; auto].
    destruct (UnmarshalMap (Params msg)) as [?|params];
      [eexists _, _; (split; [reflexivity|]); simpl; repeat split; auto|].
    destruct (assert_string (index params "name")) as [toolName|];
      [|eexists _, _; (split; [reflexivity|]); simpl; repeat split; auto].
    destruct (executor toolName (assert_map (index params "arguments")))
      as [result [e|]];
      eexists _, _; (split; [reflexivity|]); simpl; repeat split; auto. }
  destruct (String.eqb_spec (Method msg) "resources/read") as [Hm|_].
  { rewrite Hm. simpl. unfold WebSocketServer.handleResourceRead.
    destruct (initialized s) eqn:Hi; eexists _, _; (split; [reflexivity|]);
      simpl; repeat split; auto. }
  destruct (String.eqb_spec (Method msg) "shutdown") as [Hm|_].
  { unfold WebSocketServer.handleShutdown.
    eexists _, _; (split; [reflexivity|]); simpl; repeat split; auto. }
  eexists _, _; (split; [reflexivity|]); simpl; repeat split; auto.
Qed.

(** X15: the WebSocket server answers every frame that decodes, whatever its
    method and whether or not it carries an id: the reply has version "2.0",
    the id of the frame, no method, and never both a result and an error.
    The tool table, the executor and the capabilities are never changed, and
    the session is initialized afterwards exactly when the method was
    [initialize], or was not [shutdown] and the session was initialized
    before.  A frame that does not decode gets no message but the parse
    error, and changes nothing. *)
Theorem websocket_always_replies (message : error + Message) (s : BaseServer) :
  match message with
  | inl err =>
      WebSocketServer.handleMessage message s
      = (None, Some ("解析消息失败: " ++ err), s)
  | inr msg =>
      ∃ r s',
        WebSocketServer.handleMessage message s = (Some r, None, s')
        ∧ JSONRPC r = "2.0" ∧ ID r = ID msg ∧ Method r = ""
        ∧ (is_nil (Result r) = true ∨ Error r = None)
        ∧ tools s' = tools s ∧ toolExecutor s' = toolExecutor s
        ∧ capabilities s' = capabilities s
        ∧ initialized s'
          = (if String.eqb (Method msg) "initialize" then true
             else if String.eqb (Method msg) "shutdown" then false
             else initialized s)
  end.
Proof. exact (handleMessage_replies message s). Qed.

End websocket_replies.

(** ** Connections of the WebSocket server *)

Section websocket_connections.
Context {golib : GoLib}.








Lemma iteration_other (c c' : WebSocketConnections.Conn)
    (message : error + Message) (s : WebSocketConnections.t) :
  c ≠ c' →
  (WebSocketConnections.sockets (WebSocketConnections.iteration c message s) !! c'
   = WebSocketConnections.sockets s !! c'
   ∧ (c' ∈ WebSocketConnections.conns (WebSocketConnections.iteration c message s)
      ↔ c' ∈ WebSocketConnections.conns s))
  ∧ (WebSocketConnections.sockets (WebSocketConnections.readError c s) !! c'
     = WebSocketConnections.sockets s !! c'
     ∧ (c' ∈ WebSocketConnections.conns (WebSocketConnections.readError c s)
        ↔ c' ∈ WebSocketConnections.conns s)).
Proof.
  intros Hne. split.
  - unfold WebSocketConnections.iteration.
    destruct (WebSocketConnections.sockets s !! c) as [sk|]; [|done].
    destruct (WebSocketConnections.serving sk); [|done].
    destruct (WebSocketServer.handleMessage message (WebSocketConnections.session s))
      as [[[response|] [err|]] b]; simpl; try done.
    + destruct (WebSocketConnections.WriteJSON _ sk). simpl.
      by rewrite lookup_insert_ne.
    + destruct (WebSocketConnections.WriteJSON response sk) as [[e|] sk']; simpl;
        rewrite lookup_insert_ne by done; (split; [done | set_solver]).
    + destruct (WebSocketConnections.WriteJSON _ sk). simpl.
      by rewrite lookup_insert_ne.
  - unfold WebSocketConnections.readError.
    destruct (WebSocketConnections.sockets s !! c) as [sk|]; [|done].
    destruct (WebSocketConnections.serving sk); [|done]. simpl.
    rewrite lookup_insert_ne by done. split; [done | set_solver].
Qed.

(** X17: a frame or a read error on one connection never touches another
    connection: the other socket, what was sent on it and its membership in
    the connection set stay as they were. *)
Theorem connections_are_isolated (c c' : WebSocketConnections.Conn)
    (message : error + Message) (s : WebSocketConnections.t) :
  c ≠ c' →
  (WebSocketConnections.sockets (WebSocketConnections.iteration c message s) !! c'
   = WebSocketConnections.sockets s !! c'
   ∧ (c' ∈ WebSocketConnections.conns (WebSocketConnections.iteration c message s)
      ↔ c' ∈ WebSocketConnections.conns s))
  ∧ (WebSocketConnections.sockets (WebSocketConnections.readError c s) !! c'
     = WebSocketConnections.sockets s !! c'
     ∧ (c' ∈ WebSocketConnections.conns (WebSocketConnections.readError c s)
        ↔ c' ∈ WebSocketConnections.conns s)).
Proof. exact (iteration_other c c' message s). Qed.



End websocket_connections.

(** ** More on the stdio connection *)

(** X20: [Start] on a running connection fails and changes nothing, and
    [Stop] on a connection that is not running does nothing.  [Stop] closes
    the stop channel, which [Start] never reopens: a connection that was
    stopped and started again panics when it is stopped once more. *)
Theorem connection_lifecycle (c : stdioConnection.t) :
  (stdioConnection.running c = true →
   stdioConnection.Start c = (Some "连接已在运行", c))
  ∧ (stdioConnection.running c = false →
     stdioConnection.Stop c = Done (None, c))
  ∧ (stdioConnection.running c = true → stdioConnection.stopCh c = false →
     stdioConnection.Stop c
     = Done (None, stdioConnection.mk (stdioConnection.writer c) false
                     (stdioConnection.responses c) true)
     ∧ stdioConnection.run
         [stdioConnection.CallStop; stdioConnection.CallStart;
          stdioConnection.CallStop] c
       = Panic "close of closed channel")
  ∧ (stdioConnection.running c = true → stdioConnection.stopCh c = true →
     stdioConnection.Stop c = Panic "close of closed channel").
Proof.
  unfold stdioConnection.Start, stdioConnection.Stop. simpl.
  unfold stdioConnection.Start, stdioConnection.Stop. simpl.
  repeat split; intros; repeat match goal with H : _ = _ |- _ => rewrite H end;
    simpl; done.
Qed.

Lemma connection_lifecycle_witness :
  stdioConnection.run
    [stdioConnection.CallStart; stdioConnection.CallStop;
     stdioConnection.CallStart; stdioConnection.CallStop]
    (stdioConnection.newStdioConnection Examples.stdout)
  = Panic "close of closed channel".
Proof.
  destruct (connection_lifecycle
              (stdioConnection.mk Examples.stdout true ∅ false))
    as (_ & _ & Hrestart & _).
  destruct Hrestart as [_ Hpanic]; [reflexivity..|]. exact Hpanic.
Defined.

(** X21: what [SendMessage] does.  On a connection that is not running it
    fails without writing.  When the write fails it returns the write error
    and registers nothing.  When the write succeeds, a request is registered
    with a nil entry under its id, replacing a response that was stored
    there; any other message leaves the table alone; and a request whose id
    is a slice or a map makes the call panic after the line was written. *)
Theorem SendMessage_outcomes (msg : Message) (c : stdioConnection.t) :
  (stdioConnection.running c = false →
   stdioConnection.SendMessage msg c = Done (Some "连接未运行", c))
  ∧ (stdioConnection.running c = true →
     accepts (stdioConnection.writer c) = false →
     ∃ err c', stdioConnection.SendMessage msg c = Done (Some err, c')
       ∧ stdioConnection.responses c' = stdioConnection.responses c
       ∧ written (stdioConnection.writer c')
         = written (stdioConnection.writer c))
  ∧ (stdioConnection.running c = true →
     accepts (stdioConnection.writer c) = true →
     match IsRequest msg, hashKey (ID msg) with
     | true, Some k =>
         ∃ c', stdioConnection.SendMessage msg c = Done (None, c')
           ∧ stdioConnection.responses c'
             = <[k := None]> (stdioConnection.responses c)
           ∧ written (stdioConnection.writer c')
             = (written (stdioConnection.writer c) ++ [msg])%list
     | true, None =>
         stdioConnection.SendMessage msg c
         = Panic "runtime error: hash of unhashable type"
     | false, _ =>
         ∃ c', stdioConnection.SendMessage msg c = Done (None, c')
           ∧ stdioConnection.responses c' = stdioConnection.responses c
           ∧ written (stdioConnection.writer c')
             = (written (stdioConnection.writer c) ++ [msg])%list
     end).
Proof.
  unfold stdioConnection.SendMessage, stdioConnection.IsRunning, Write, accepts.
  split; [by intros ->|]. split.
  - intros -> Hacc. simpl.
    destruct (outcomes (stdioConnection.writer c)) as [|[err|] rest]; try done.
    simpl. eauto.
  - intros -> Hacc. simpl.
    destruct (outcomes (stdioConnection.writer c)) as [|[err|] rest]; try done;
      simpl; destruct (IsRequest msg); try destruct (hashKey (ID msg));
      simpl; eauto.
Qed.

Lemma SendMessage_outcomes_witness :
  ∃ c', stdioConnection.SendMessage Examples.toolsList
          (stdioConnection.mk Examples.stdout true ∅ false) = Done (None, c')
    ∧ stdioConnection.responses c' = <[KString "tools-1" := None]> ∅.
Proof.
  destruct (SendMessage_outcomes Examples.toolsList
              (stdioConnection.mk Examples.stdout true ∅ false))
    as (_ & _ & Hok).
  destruct Hok as (c' & Hs & Hr & _); [reflexivity..|].
  exists c'. split; assumption.
Defined.

Lemma step_well_stored (cl : stdioConnection.call) (c c' : stdioConnection.t) :
  well_stored c → stdioConnection.step cl c = Done c' → well_stored c'.
Proof.
  unfold well_stored. intros Hws. destruct cl as [| |msg|msg|id]; simpl.
  - intros [= <-]. by rewrite Start_responses.
  - intros (r & Hr & [= <-])%bind_Done. by rewrite (Stop_responses _ _ Hr).
  - intros (r & Hr & [= <-])%bind_Done.
    destruct (SendMessage_responses _ _ _ Hr) as [->|(_ & k' & _ & ->)]; [done|].
    intros k m. destruct (decide (k' = k)) as [->|Hne].
    + by rewrite lookup_insert_eq.
    + rewrite lookup_insert_ne by done. apply Hws.
  - intros Hh. destruct (handleResponse_responses _ _ _ Hh)
      as [->|(Hr & k' & Hk' & _ & ->)]; [done|].
    intros k m. destruct (decide (k' = k)) as [->|Hne].
    + rewrite lookup_insert_eq. by intros [= <-].
    + rewrite lookup_insert_ne by done. apply Hws.
  - intros (k' & _ & ->)%cleanup_responses. intros k m.
    destruct (decide (k' = k)) as [->|Hne].
    + by rewrite lookup_delete_eq.
    + rewrite lookup_delete_ne by done. apply Hws.
Qed.

Lemma run_well_stored (calls : list stdioConnection.call)
    (c c' : stdioConnection.t) :
  well_stored c → stdioConnection.run calls c = Done c' → well_stored c'.
Proof.
  revert c. induction calls as [|cl calls IH]; intros c Hws; simpl.
  - by intros [= <-].
  - intros (c1 & H1 & Hrun)%bind_Done.
    apply (IH c1); [by apply (step_well_stored cl c) | done].
Qed.

Lemma WaitForResponse_well_stored (id : value)
    (sched : list stdioConnection.slot) (c c' : stdioConnection.t) (r : Message) :
  well_stored c →
  stdioConnection.WaitForResponse id sched c = Done (Some r, c') →
  IsResponse r = true ∧ hashKey (ID r) = hashKey id ∧ well_stored c'.
Proof.
  revert c. induction sched as [|sl sched IH]; intros c Hws; simpl; [done|].
  destruct (hashKey id) as [k|] eqn:Hid; [|done].
  destruct (stdioConnection.responses c !! k) as [[response|]|] eqn:Hk.
  - intros (c1 & H1 & (c2 & H2 & [= <- <-])%bind_Done)%bind_Done.
    destruct (Hws k response Hk) as [? ?]. split; [done|]. split; [done|].
    apply (step_well_stored (stdioConnection.CallCleanup id) c1); [|done].
    by apply (run_well_stored (stdioConnection.before_cleanup sl) c).
  - intros (c1 & H1 & Hw)%bind_Done. apply (IH c1); [|done].
    by apply (run_well_stored (stdioConnection.during_sleep sl) c).
  - intros (c1 & H1 & Hw)%bind_Done. apply (IH c1); [|done].
    by apply (run_well_stored (stdioConnection.during_sleep sl) c).
Qed.

(** X22: in every execution of the stdio connection, a response held by the
    pending table is a response message stored under the key of its own id;
    so whatever [WaitForResponse] returns for an id, after any schedule of
    other calls, is a response message that carries that id. *)
Theorem waiter_gets_a_response_with_its_id (w : Writer)
    (calls : list stdioConnection.call) (c : stdioConnection.t) :
  stdioConnection.run calls (stdioConnection.newStdioConnection w) = Done c →
  well_stored c
  ∧ ∀ id sched r c',
      stdioConnection.WaitForResponse id sched c = Done (Some r, c') →
      IsResponse r = true ∧ hashKey (ID r) = hashKey id.
Proof.
  intros Hrun.
  assert (well_stored c) as Hws.
  { apply (run_well_stored calls (stdioConnection.newStdioConnection w));
      [|done]. intros k m. simpl. by rewrite lookup_empty. }
  split; [done|]. intros id sched r c' Hw.
  by destruct (WaitForResponse_well_stored id sched c c' r Hws Hw) as (? & ? & _).
Qed.

Lemma waiter_gets_a_response_with_its_id_witness :
  IsResponse Examples.lateResponse = true
  ∧ hashKey (ID Examples.lateResponse) = hashKey (VString "tools-1").
Proof.
  destruct (waiter_gets_a_response_with_its_id Examples.stdout
              [stdioConnection.CallStart;
               stdioConnection.CallSendMessage Examples.toolsList;
               stdioConnection.CallHandleResponse Examples.lateResponse]
              Examples.conn1) as [_ Hwait]; [vm_compute; reflexivity|].
  apply (Hwait (VString "tools-1") [Examples.idle] Examples.lateResponse
           (stdioConnection.set_responses
              (delete (KString "tools-1")
                 (stdioConnection.responses Examples.conn1))
              Examples.conn1)).
  vm_compute. reflexivity.
Defined.

(** X23: responses are matched to waiters by id, not by arrival order.  With
    two requests pending under different ids, the two responses may reach
    [handleResponse] in the other order: each wait still returns the response
    that carries its id, and afterwards both entries are gone.  A second
    response for the same id replaces the first one. *)
Theorem responses_correlate_by_id (c : stdioConnection.t) (id1 id2 : value)
    (k1 k2 : Key) (r1 r2 r1' : Message) :
  hashKey id1 = Some k1 → hashKey id2 = Some k2 → k1 ≠ k2 →
  stdioConnection.responses c !! k1 = Some None →
  stdioConnection.responses c !! k2 = Some None →
  IsResponse r1 = true → hashKey (ID r1) = Some k1 →
  IsResponse r2 = true → hashKey (ID r2) = Some k2 →
  IsResponse r1' = true → hashKey (ID r1') = Some k1 →
  ∃ c' c1 c2,
    stdioConnection.run
      [stdioConnection.CallHandleResponse r2;
       stdioConnection.CallHandleResponse r1;
       stdioConnection.CallHandleResponse r1'] c = Done c'
    ∧ stdioConnection.WaitForResponse id1 [stdioConnection.mkSlot [] []] c'
      = Done (Some r1', c1)
    ∧ stdioConnection.WaitForResponse id2 [stdioConnection.mkSlot [] []] c1
      = Done (Some r2, c2)
    ∧ stdioConnection.responses c2
      = delete k2 (delete k1 (stdioConnection.responses c)).
Proof.
  intros Hid1 Hid2 Hne Hp1 Hp2 Hr1 Hk1 Hr2 Hk2 Hr1' Hk1'.
  eexists _, _, _. split; [|split; [|split]].
  - simpl. unfold stdioConnection.handleResponse.
    rewrite Hr2, Hk2, Hp2. simpl. rewrite Hr1, Hk1.
    rewrite lookup_insert_ne, Hp1 by done. simpl. rewrite Hr1', Hk1'.
    rewrite lookup_insert_eq. simpl. reflexivity.
  - simpl. rewrite Hid1. simpl. rewrite lookup_insert_eq. simpl.
    unfold stdioConnection.cleanup. rewrite Hid1. reflexivity.
  - simpl. rewrite Hid2. simpl.
    rewrite lookup_delete_ne, !lookup_insert_ne, lookup_insert_eq by done. simpl.
    unfold stdioConnection.cleanup. rewrite Hid2. reflexivity.
  - simpl. apply map_eq. intros k.
    destruct (decide (k = k2)) as [->|?]; [by rewrite !lookup_delete_eq|].
    rewrite !(lookup_delete_ne _ k2) by done.
    destruct (decide (k = k1)) as [->|?]; [by rewrite !lookup_delete_eq|].
    by rewrite !lookup_delete_ne, !lookup_insert_ne by done.
Qed.

(** ** The loops of the stdio connection *)

Lemma parsed_app (a b : list stdioLoops.line) :
  stdioLoops.parsed (a ++ b)
  = (stdioLoops.parsed a ++ stdioLoops.parsed b)%list.
Proof. apply omap_app. Qed.

(** What the loops keep: the channel within its capacity, and the messages
    handled and in flight a subsequence of those scanned. *)
Lemma step_in_order (lines : list stdioLoops.line) (ev : stdioLoops.event)
    (l l' : stdioLoops.t) :
  ((length (stdioLoops.responseCh l) ≤ stdioLoops.capacity)%nat
   ∧ ∃ consumed,
       lines = (consumed ++ stdioLoops.scanner l)%list
       ∧ sublist (stdioLoops.handled l ++ stdioLoops.in_flight l)%list
           (stdioLoops.parsed consumed)) →
  stdioLoops.step ev l = Done l' →
  (length (stdioLoops.responseCh l') ≤ stdioLoops.capacity)%nat
  ∧ ∃ consumed,
      lines = (consumed ++ stdioLoops.scanner l')%list
      ∧ sublist (stdioLoops.handled l' ++ stdioLoops.in_flight l')%list
          (stdioLoops.parsed consumed).
Proof.
  intros (Hlen & consumed & Hlines & Hsub).
  destruct ev as [|msg|id|pick|pick]; simpl.
  - intros (r & _ & [= <-])%bind_Done. eauto.
  - intros (r & _ & [= <-])%bind_Done. eauto.
  - intros (r & _ & [= <-])%bind_Done. eauto.
  - intros [= <-]. unfold stdioLoops.readTurn, stdioLoops.in_flight in *.
    destruct (stdioLoops.readLoop l) as [[| |msg]|] eqn:Hr; simpl.
    + destruct (stdioConnection.IsRunning (stdioLoops.conn l)); simpl; eauto.
    + destruct (stdioLoops.scanner l) as [|[|[err|msg]] rest] eqn:Hs; simpl.
      * eauto.
      * split; [done|]. exists (consumed ++ [stdioLoops.Blank])%list.
        rewrite <- app_assoc. split; [done|].
        rewrite parsed_app.
        change (stdioLoops.parsed [stdioLoops.Blank]) with ([] : list Message).
        by rewrite (app_nil_r (stdioLoops.parsed consumed)).
      * split; [done|].
        exists (consumed ++ [stdioLoops.Text (inl err)])%list.
        rewrite <- app_assoc. split; [done|].
        rewrite parsed_app.
        change (stdioLoops.parsed [stdioLoops.Text (inl err)]) with ([] : list Message).
        by rewrite (app_nil_r (stdioLoops.parsed consumed)).
      * split; [done|].
        exists (consumed ++ [stdioLoops.Text (inr msg)])%list.
        rewrite <- app_assoc. split; [done|].
        rewrite parsed_app.
        change (stdioLoops.parsed [stdioLoops.Text (inr msg)]) with [msg].
        rewrite !app_nil_r in Hsub.
        rewrite !app_assoc. apply sublist_app; [|done].
        by rewrite <- !app_assoc.
    + assert (sublist
                (stdioLoops.handled l
                 ++ match stdioLoops.responseLoop l with
                    | Some (stdioLoops.AtHandle m) => [m]
                    | _ => []
                    end ++ stdioLoops.responseCh l ++ [])%list
                (stdioLoops.parsed consumed)) as Hdrop.
      { etrans; [|exact Hsub]. rewrite app_nil_r.
        rewrite !app_assoc. by apply sublist_inserts_r. }
      assert (sublist
                (stdioLoops.handled l
                 ++ match stdioLoops.responseLoop l with
                    | Some (stdioLoops.AtHandle m) => [m]
                    | _ => []
                    end ++ (stdioLoops.responseCh l ++ [msg]) ++ [])%list
                (stdioLoops.parsed consumed)) as Hsend.
      { by rewrite app_nil_r. }
      case_bool_decide as Hroom; simpl;
        destruct (stdioConnection.stopCh (stdioLoops.conn l)); simpl;
        try destruct pick; simpl; rewrite ?length_app; simpl;
        (split; [unfold stdioLoops.capacity in *; lia | eauto]).
    + rewrite Hr. eauto.
  - unfold stdioLoops.responseTurn, stdioLoops.in_flight in *.
    destruct (stdioLoops.responseLoop l) as [[|msg]|] eqn:Hd; simpl.
    + destruct (stdioLoops.responseCh l) as [|msg queue] eqn:Hq; simpl.
      * destruct (stdioConnection.stopCh (stdioLoops.conn l));
          intros [= <-]; simpl; rewrite ?Hq, ?Hd; eauto.
      * simpl in Hlen.
        destruct (stdioConnection.stopCh (stdioLoops.conn l)); simpl;
          try destruct pick; intros [= <-]; simpl; rewrite ?Hq; simpl;
          (split; [lia | eauto]).
    + intros (c & _ & [= <-])%bind_Done. simpl. split; [done|].
      exists consumed. split; [done|]. by rewrite <- app_assoc.
    + intros [= <-]. rewrite Hd. eauto.
Qed.

(** X24: what the two loops of a started connection do with the input,
    whatever the interleaving with [Stop], [SendMessage] and the waiters.
    The channel never holds more than 100 messages, and the messages passed
    to [handleResponse], followed by those still on their way, are a
    subsequence of the messages among the lines scanned so far, in the order
    of the lines: a blank or malformed line is skipped, and no message is
    handled twice or overtakes an earlier one. *)
Theorem loops_deliver_in_line_order (lines : list stdioLoops.line) (w : Writer)
    (events : list stdioLoops.event) (l : stdioLoops.t) :
  stdioLoops.run events (stdioLoops.started lines w) = Done l →
  (length (stdioLoops.responseCh l) ≤ 100)%nat
  ∧ ∃ consumed,
      lines = (consumed ++ stdioLoops.scanner l)%list
      ∧ sublist (stdioLoops.handled l ++ stdioLoops.in_flight l)%list
          (stdioLoops.parsed consumed).
Proof.
  assert (∀ l0,
            ((length (stdioLoops.responseCh l0) ≤ stdioLoops.capacity)%nat
             ∧ ∃ consumed,
                 lines = (consumed ++ stdioLoops.scanner l0)%list
                 ∧ sublist (stdioLoops.handled l0 ++ stdioLoops.in_flight l0)%list
                     (stdioLoops.parsed consumed)) →
            stdioLoops.run events l0 = Done l →
            (length (stdioLoops.responseCh l) ≤ stdioLoops.capacity)%nat
            ∧ ∃ consumed,
                lines = (consumed ++ stdioLoops.scanner l)%list
                ∧ sublist (stdioLoops.handled l ++ stdioLoops.in_flight l)%list
                    (stdioLoops.parsed consumed)) as Hrun.
  { induction events as [|ev events IH]; intros l0 Hinv; simpl.
    - by intros [= <-].
    - intros (l1 & H1 & Hrest)%bind_Done. apply (IH l1); [|done].
      by apply (step_in_order lines ev l0). }
  intros H. apply (Hrun (stdioLoops.started lines w)); [|done].
  simpl. split; [unfold stdioLoops.capacity; lia|].
  exists []. split; [done|]. apply sublist_nil_l.
Qed.

Lemma loops_deliver_in_line_order_witness :
  ∃ l, stdioLoops.handled l = [Examples.lateResponse]
       ∧ (length (stdioLoops.responseCh l) ≤ 100)%nat.
Proof.
  pose (events :=
          [stdioLoops.ReadTurn false; stdioLoops.ReadTurn false;
           stdioLoops.ReadTurn false; stdioLoops.ReadTurn false;
           stdioLoops.CallSendMessage Examples.toolsList;
           stdioLoops.ReadTurn false; stdioLoops.ReadTurn false;
           stdioLoops.ReadTurn false;
           stdioLoops.ResponseTurn false; stdioLoops.ResponseTurn false]).
  destruct (stdioLoops.run events
              (stdioLoops.started Scenarios.replyLines Examples.stdout))
    as [l|] eqn:Hrun; [|vm_compute in Hrun; discriminate].
  exists l.
  destruct (loops_deliver_in_line_order Scenarios.replyLines Examples.stdout
              events l Hrun) as [Hlen _].
  split; [|exact Hlen].
  vm_compute in Hrun. injection Hrun as <-. reflexivity.
Defined.

(** X25: a request and the line that answers it.  On a running connection
    whose channel is empty and whose loops are idle, [SendMessage] of a
    request, then a response line with the same id on the input, taken
    through [readLoop] and [responseLoop], make [WaitForResponse] return that
    response at its first poll; the request was written, the line is
    consumed, and the entry has left the pending table. *)
Theorem reply_line_reaches_the_waiter (c : stdioConnection.t)
    (rest : list stdioLoops.line) (h : list Message) (req resp : Message)
    (k : Key) (p1 p2 p3 p4 p5 : bool) :
  stdioConnection.running c = true →
  stdioConnection.stopCh c = false →
  accepts (stdioConnection.writer c) = true →
  IsRequest req = true → hashKey (ID req) = Some k →
  IsResponse resp = true → hashKey (ID resp) = Some k →
  ∃ c1 c2,
    stdioLoops.run
      [stdioLoops.CallSendMessage req;
       stdioLoops.ReadTurn p1; stdioLoops.ReadTurn p2; stdioLoops.ReadTurn p3;
       stdioLoops.ResponseTurn p4; stdioLoops.ResponseTurn p5]
      (stdioLoops.mk c (stdioLoops.Text (inr resp) :: rest) []
         (Some stdioLoops.AtGuard) (Some stdioLoops.AtReceive) h)
    = Done (stdioLoops.mk c1 rest [] (Some stdioLoops.AtGuard)
              (Some stdioLoops.AtReceive) (h ++ [resp]))
    ∧ stdioConnection.WaitForResponse (ID req) [stdioConnection.mkSlot [] []] c1
      = Done (Some resp, c2)
    ∧ stdioConnection.responses c2 = delete k (stdioConnection.responses c)
    ∧ written (stdioConnection.writer c2)
      = (written (stdioConnection.writer c) ++ [req])%list.
Proof.
  destruct c as [w0 running0 table stopped]. simpl.
  intros -> -> Hacc Hreq Hk Hresp Hk'.
  assert (∃ w, Write req w0 = (None, w)
               ∧ written w = (written w0 ++ [req])%list)
    as (w & Hw & Hwritten).
  { unfold accepts in Hacc. unfold Write.
    destruct (outcomes w0) as [|[err|] os]; [eauto | done | eauto]. }
  exists (stdioConnection.mk w true
            (<[k := Some resp]> (<[k := None]> table)) false),
    (stdioConnection.mk w true (delete k table) false).
  split; [|split; [|split; [done|done]]].
  - simpl. unfold stdioConnection.SendMessage, stdioConnection.IsRunning.
    simpl. rewrite Hw, Hreq, Hk. simpl.
    unfold stdioLoops.responseTurn. simpl.
    unfold stdioConnection.handleResponse. simpl.
    rewrite Hresp, Hk', lookup_insert_eq. simpl. reflexivity.
  - simpl. rewrite Hk. simpl. rewrite lookup_insert_eq. simpl.
    unfold stdioConnection.cleanup. rewrite Hk. simpl.
    unfold stdioConnection.set_responses. simpl.
    by rewrite delete_insert_eq, delete_insert_eq.
Qed.

Lemma reply_line_reaches_the_waiter_witness :
  ∃ c1 c2,
    stdioConnection.WaitForResponse (VString "tools-1")
      [stdioConnection.mkSlot [] []] c1
    = Done (Some Examples.lateResponse, c2)
    ∧ stdioConnection.responses c2 = ∅.
Proof.
  destruct (reply_line_reaches_the_waiter
              (stdioConnection.mk Examples.stdout true ∅ false) [] []
              Examples.toolsList Examples.lateResponse (KString "tools-1")
              false false false false false)
    as (c1 & c2 & _ & Hwait & Htable & _); try reflexivity.
  exists c1, c2. split; [exact Hwait|].
  rewrite Htable. simpl. apply delete_empty.
Defined.

(** ** The results above on the example data *)

Lemma connections_are_isolated_witness :
  WebSocketConnections.sockets
    (WebSocketConnections.iteration (golib := Reference.lib) 1
       (inr Examples.toolsList) Scenarios.twoConnections) !! 2
  = Some Scenarios.openSocket.
Proof.
  destruct (connections_are_isolated (golib := Reference.lib) 1 2
              (inr Examples.toolsList) Scenarios.twoConnections)
    as [[Hsk _] _]; [lia|].
  etrans; [exact Hsk|]. vm_compute. reflexivity.
Defined.



Lemma responses_correlate_by_id_witness :
  ∃ c' c1 c2,
    stdioConnection.run
      [stdioConnection.CallHandleResponse Scenarios.callResponse;
       stdioConnection.CallHandleResponse Examples.lateResponse;
       stdioConnection.CallHandleResponse Scenarios.toolsResponse]
      Scenarios.conn2 = Done c'
    ∧ stdioConnection.WaitForResponse (VString "tools-1")
        [stdioConnection.mkSlot [] []] c' = Done (Some Scenarios.toolsResponse, c1)
    ∧ stdioConnection.WaitForResponse (VString "call-1")
        [stdioConnection.mkSlot [] []] c1 = Done (Some Scenarios.callResponse, c2).
Proof.
  destruct (responses_correlate_by_id Scenarios.conn2
              (VString "tools-1") (VString "call-1")
              (KString "tools-1") (KString "call-1")
              Examples.lateResponse Scenarios.callResponse
              Scenarios.toolsResponse)
    as (c' & c1 & c2 & Hrun & Hw1 & Hw2 & _);
    [reflexivity | reflexivity | done | vm_compute; reflexivity
    | vm_compute; reflexivity | reflexivity..|].
  exists c', c1, c2. split; [exact Hrun|]. split; [exact Hw1 | exact Hw2].
Defined.

(** ** The stdio client *)

Lemma from_loops_app (l1 l2 : list stdioConnection.call) :
  StdioClient.from_loops (l1 ++ l2) →
  StdioClient.from_loops l1 ∧ StdioClient.from_loops l2.
Proof.
  unfold StdioClient.from_loops. intros H.
  split; intros cl Hin; apply H, elem_of_app; auto.
Qed.

Lemma run_from_loops (calls : list stdioConnection.call) (c : stdioConnection.t) :
  StdioClient.from_loops calls →
  ∃ c', stdioConnection.run calls c = Done c'
        ∧ stdioConnection.running c' = stdioConnection.running c
        ∧ stdioConnection.stopCh c' = stdioConnection.stopCh c.
Proof.
  revert c. induction calls as [|cl calls IH]; intros c Hloops; simpl; [eauto|].
  destruct (Hloops cl) as (msg & -> & Hkey); [apply elem_of_cons; by left|].
  assert (StdioClient.from_loops calls) as Hrest.
  { intros cl' Hin. apply Hloops, elem_of_cons. by right. }
  simpl. unfold stdioConnection.handleResponse.
  destruct (IsResponse msg) eqn:Hresp; simpl; [|by apply IH].
  destruct (hashKey (ID msg)) as [k|] eqn:Hk; [|by destruct Hkey].
  destruct (stdioConnection.responses c !! k); simpl; [|by apply IH].
  destruct (IH (stdioConnection.set_responses
                  (<[k := Some msg]> (stdioConnection.responses c)) c) Hrest)
    as (c' & -> & ? & ?).
  eauto.
Qed.

Lemma WaitForResponse_from_loops (id : value) (k : Key)
    (sched : list stdioConnection.slot) (c : stdioConnection.t) :
  hashKey id = Some k →
  StdioClient.from_loops (stdioConnection.calls_of sched) →
  ∃ r c', stdioConnection.WaitForResponse id sched c = Done (r, c')
          ∧ stdioConnection.running c' = stdioConnection.running c
          ∧ stdioConnection.stopCh c' = stdioConnection.stopCh c.
Proof.
  intros Hid. revert c. induction sched as [|sl sched IH]; intros c; [simpl; eauto|].
  unfold stdioConnection.calls_of. rewrite fmap_cons. cbn [concat].
  intros [[Hb Hd]%from_loops_app Hrest]%from_loops_app.
  cbn [stdioConnection.WaitForResponse]. rewrite Hid.
  destruct (run_from_loops (stdioConnection.before_cleanup sl) c Hb)
    as (cb & Hcb & Hb1 & Hb2).
  destruct (run_from_loops (stdioConnection.during_sleep sl) c Hd)
    as (cd & Hcd & Hd1 & Hd2).
  destruct (IH cd Hrest) as (r & c' & Hw & H1 & H2).
  destruct (stdioConnection.responses c !! k) as [[response|]|].
  - rewrite Hcb. simpl. unfold stdioConnection.cleanup. rewrite Hid. simpl.
    eexists _, _. split; [reflexivity|]. simpl. by split.
  - rewrite Hcd. simpl. rewrite Hw. eexists _, _. split; [reflexivity|].
    split; congruence.
  - rewrite Hcd. simpl. rewrite Hw. eexists _, _. split; [reflexivity|].
    split; congruence.
Qed.

Lemma client_send (msg : Message) (s : string) (cl : StdioClient.t)
    (c : stdioConnection.t) :
  StdioClient.conn cl = Some c → ID msg = VString s →
  ∃ err c',
    StdioClient.send msg cl = Done (err, StdioClient.mk (StdioClient.writer cl) (Some c'))
    ∧ stdioConnection.running c' = stdioConnection.running c
    ∧ stdioConnection.stopCh c' = stdioConnection.stopCh c.
Proof.
  intros Hc Hid. unfold StdioClient.send. rewrite Hc.
  unfold stdioConnection.SendMessage.
  destruct (stdioConnection.IsRunning c); simpl; [|eauto].
  destruct (Write msg (stdioConnection.writer c)) as [[err|] w]; simpl; [eauto|].
  rewrite Hid. simpl. destruct (IsRequest msg); simpl; eauto.
Qed.

Lemma client_wait (s : string) (sched : list stdioConnection.slot)
    (cl : StdioClient.t) (c : stdioConnection.t) :
  StdioClient.conn cl = Some c →
  StdioClient.from_loops (stdioConnection.calls_of sched) →
  ∃ r c',
    StdioClient.wait (VString s) sched cl
    = Done (r, StdioClient.mk (StdioClient.writer cl) (Some c'))
    ∧ stdioConnection.running c' = stdioConnection.running c
    ∧ stdioConnection.stopCh c' = stdioConnection.stopCh c.
Proof.
  intros Hc Hloops. unfold StdioClient.wait. rewrite Hc.
  destruct (WaitForResponse_from_loops (VString s) (KString s) sched c eq_refl Hloops)
    as (r & c' & -> & ? & ?).
  simpl. eauto.
Qed.

Lemma client_Disconnect (cl : StdioClient.t) :
  StdioClient.stoppable cl →
  ∃ cl', StdioClient.Disconnect cl = Done (None, cl')
         ∧ StdioClient.stoppable cl' ∧ StdioClient.IsConnected cl' = false.
Proof.
  unfold StdioClient.stoppable, StdioClient.Disconnect, StdioClient.IsConnected.
  destruct cl as [w [[cw running table stopped]|]]; simpl; [|eauto].
  unfold stdioConnection.Stop. simpl.
  destruct running; simpl.
  - intros Hs. destruct stopped; [done|]. simpl. eexists. split; [reflexivity|].
    simpl. done.
  - intros Hs. eexists. split; [reflexivity|]. simpl. done.
Qed.

Section client.
Context (MarshalInitializeParams : InitializeParams → error + RawMessage)
        (MarshalToolCallParams : ToolCallParams → error + RawMessage)
        (MarshalResourceReadParams : ResourceReadParams → error + RawMessage)
        (DecodeTools : any → error + list Tool)
        (DecodeToolCallResult : any → error + ToolCallResult)
        (DecodeResourceReadResult : any → error + ResourceReadResult).

(** X26: a client that is not connected, because [Connect] was never called
    or because it was disconnected, does nothing until [Connect] is called:
    whatever methods are called on it, in whatever order, nothing is written
    and its state stays as it was.  [Initialize], [ListTools], [CallTool],
    [ReadResource], [WriteResource] and [ListResources] return the
    not-connected error, [Shutdown] and [Disconnect] return nil.  On a
    connected client [WriteResource] and [ListResources] still always fail. *)
Theorem client_without_connection (cl : StdioClient.t) :
  (StdioClient.IsConnected cl = false →
   (∀ ops,
      StdioClient.OpConnect ∉ ops →
      StdioClient.run MarshalInitializeParams MarshalToolCallParams
        MarshalResourceReadParams DecodeTools DecodeToolCallResult
        DecodeResourceReadResult ops cl = Done cl)
   ∧ StdioClient.Initialize MarshalInitializeParams cl
     = Done (Some "客户端未连接", cl)
   ∧ (∀ calls, StdioClient.Shutdown calls cl = Done (None, cl))
   ∧ StdioClient.Disconnect cl = Done (None, cl)
   ∧ (∀ sched, StdioClient.ListTools DecodeTools sched cl
               = Done (([], Some "客户端未连接"), cl))
   ∧ (∀ now name arguments sched,
        StdioClient.CallTool MarshalToolCallParams DecodeToolCallResult
          now name arguments sched cl
        = Done ((None, Some "客户端未连接"), cl))
   ∧ (∀ now uri sched,
        StdioClient.ReadResource MarshalResourceReadParams
          DecodeResourceReadResult now uri sched cl
        = Done ((None, Some "客户端未连接"), cl)))
  ∧ (∀ uri content,
       StdioClient.WriteResource uri content cl
       = Some (if StdioClient.IsConnected cl then "写入资源功能尚未实现"
               else "客户端未连接"))
  ∧ (∀ uri,
       StdioClient.ListResources uri cl
       = ([], Some (if StdioClient.IsConnected cl then "列出资源功能尚未实现"
                    else "客户端未连接"))).
Proof.
  split; [|split].
  - intros Hc.
    assert (StdioClient.Disconnect cl = Done (None, cl)) as Hd.
    { unfold StdioClient.Disconnect, StdioClient.IsConnected in *.
      destruct cl as [w [c|]]; simpl in *; [|done].
      unfold stdioConnection.Stop, stdioConnection.IsRunning in *.
      by rewrite Hc. }
    split; [|unfold StdioClient.Initialize, StdioClient.Shutdown,
               StdioClient.ListTools, StdioClient.CallTool,
               StdioClient.ReadResource; rewrite Hc; simpl; done].
    induction ops as [|o ops IH]; intros Hno; [done|].
    apply not_elem_of_cons in Hno as [Ho Hno]. simpl.
    assert (StdioClient.exec MarshalInitializeParams MarshalToolCallParams
              MarshalResourceReadParams DecodeTools DecodeToolCallResult
              DecodeResourceReadResult o cl = Done cl) as ->;
      [|simpl; by apply IH].
    destruct o; simpl; try done;
      unfold StdioClient.Initialize, StdioClient.Shutdown,
        StdioClient.ListTools, StdioClient.CallTool,
        StdioClient.ReadResource; rewrite ?Hc, ?Hd; simpl; done.
  - intros uri content. unfold StdioClient.WriteResource.
    by destruct (StdioClient.IsConnected cl).
  - intros uri. unfold StdioClient.ListResources.
    by destruct (StdioClient.IsConnected cl).
Qed.

(** X27: what [ListTools] returns on a connected client whose request is
    written.  When no response with the id "tools-1" reaches the connection
    during the wait, the call fails with the timeout error and the entry
    stays in the pending table.  When such a response arrives during the
    first sleep, the call returns at the second poll: the error text of the
    response when it carries an error (also when it carries a result too),
    otherwise what the result decodes to, or the decoding error; the entry
    has left the table.  The request written is the same every time, so the
    response may as well be the late answer to an earlier [ListTools]. *)
Theorem ListTools_outcomes (cl : StdioClient.t) (c : stdioConnection.t) :
  StdioClient.conn cl = Some c →
  stdioConnection.running c = true →
  accepts (stdioConnection.writer c) = true →
  let request :=
    {| JSONRPC := JSONRPCVersion; ID := VString "tools-1";
       Method := "tools/list"; Params := None; Result := nil; Error := None |} in
  (∀ sched c',
     (∀ sl, sl ∈ sched →
            stdioConnection.no_response_for (KString "tools-1")
              (stdioConnection.during_sleep sl)) →
     stdioConnection.run (concat (stdioConnection.during_sleep <$> sched))
       (stdioConnection.mk
          (mkWriter (tail (outcomes (stdioConnection.writer c)))
             (written (stdioConnection.writer c) ++ [request]))
          true
          (<[KString "tools-1" := None]> (stdioConnection.responses c))
          (stdioConnection.stopCh c))
     = Done c' →
     StdioClient.ListTools DecodeTools sched cl
     = Done (([], Some "获取工具列表超时"),
             StdioClient.mk (StdioClient.writer cl) (Some c'))
     ∧ stdioConnection.awaiting (KString "tools-1") c')
  ∧ (∀ response sched,
       IsResponse response = true → ID response = VString "tools-1" →
       ∃ c',
         StdioClient.ListTools DecodeTools
           (stdioConnection.mkSlot []
              [stdioConnection.CallHandleResponse response]
            :: stdioConnection.mkSlot [] [] :: sched) cl
         = Done (match Error response with
                 | Some e => ([], Some ("获取工具列表失败: " ++ Error.Message e))
                 | None =>
                     match DecodeTools (Result response) with
                     | inl err => ([], Some ("解析工具列表失败: " ++ err))
                     | inr tools => (tools, None)
                     end
                 end, StdioClient.mk (StdioClient.writer cl) (Some c'))
         ∧ stdioConnection.responses c'
           = delete (KString "tools-1") (stdioConnection.responses c)
         ∧ written (stdioConnection.writer c')
           = (written (stdioConnection.writer c) ++ [request])%list).
Proof.
  intros Hc Hrun Hacc request.
  assert (Write request (stdioConnection.writer c)
          = (None, mkWriter (tail (outcomes (stdioConnection.writer c)))
                     (written (stdioConnection.writer c) ++ [request]))) as Hw.
  { unfold accepts in Hacc. unfold Write.
    by destruct (outcomes (stdioConnection.writer c)) as [|[err|] os]. }
  assert (StdioClient.IsConnected cl = true) as Hconn.
  { unfold StdioClient.IsConnected. by rewrite Hc. }
  assert (StdioClient.send request cl
          = Done (None, StdioClient.mk (StdioClient.writer cl)
                          (Some (stdioConnection.mk
                             (mkWriter (tail (outcomes (stdioConnection.writer c)))
                                (written (stdioConnection.writer c) ++ [request]))
                             true
                             (<[KString "tools-1" := None]>
                                (stdioConnection.responses c))
                             (stdioConnection.stopCh c))))) as Hsend.
  { unfold StdioClient.send. rewrite Hc.
    unfold stdioConnection.SendMessage, stdioConnection.IsRunning.
    rewrite Hrun, Hw. simpl. done. }
  split.
  - intros sched c' Hno Hothers.
    match type of Hothers with
    | stdioConnection.run _ ?c1 = _ =>
        destruct (WaitForResponse_timeout (VString "tools-1")
                    (KString "tools-1") sched c1 c' eq_refl) as [Hwait Haw];
          [right; simpl; by rewrite lookup_insert_eq | done | done |]
    end.
    split; [|done].
    unfold StdioClient.ListTools. rewrite Hconn. cbn [negb].
    fold request. rewrite Hsend. simpl.
    unfold StdioClient.wait. simpl. rewrite Hwait. simpl. reflexivity.
  - intros response sched Hresp Hid.
    eexists. split; [|split].
    + unfold StdioClient.ListTools. rewrite Hconn. cbn [negb].
      fold request. rewrite Hsend. simpl.
      unfold StdioClient.wait. simpl. rewrite lookup_insert_eq. simpl.
      unfold stdioConnection.handleResponse. rewrite Hresp, Hid. simpl.
      rewrite lookup_insert_eq. simpl. rewrite lookup_insert_eq. simpl.
      destruct (Error response) as [e|] eqn:He; [reflexivity|].
      assert (is_nil (Result response) = false) as ->.
      { unfold IsResponse in Hresp. rewrite He in Hresp. simpl in Hresp.
        destruct (is_nil (Result response)); [done|done]. }
      by destruct (DecodeTools (Result response)).
    + simpl. by rewrite !delete_insert_eq.
    + done.
Qed.

Lemma exec_stoppable (o : StdioClient.op) (cl : StdioClient.t) :
  StdioClient.op_from_loops o → StdioClient.stoppable cl →
  ∃ cl',
    StdioClient.exec MarshalInitializeParams MarshalToolCallParams
      MarshalResourceReadParams DecodeTools DecodeToolCallResult
      DecodeResourceReadResult o cl = Done cl'
    ∧ StdioClient.stoppable cl'.
Proof.
  intros Hloops Hinv.
  assert (∀ (c c' : stdioConnection.t) w,
            StdioClient.conn cl = Some c →
            stdioConnection.running c' = stdioConnection.running c →
            stdioConnection.stopCh c' = stdioConnection.stopCh c →
            StdioClient.stoppable (StdioClient.mk w (Some c'))) as Hkeep.
  { intros c c' w Hc H1 H2. unfold StdioClient.stoppable in *. rewrite Hc in Hinv.
    simpl. congruence. }
  assert (∀ s (sched : list stdioConnection.slot) (msg : Message) (A : Type)
            (k : option Message → A) (e : error → A),
            ID msg = VString s →
            StdioClient.from_loops (stdioConnection.calls_of sched) →
            StdioClient.IsConnected cl = true →
            ∃ cl',
              (r ← StdioClient.send msg cl;
               match r.1 with
               | Some err => Done (e err, r.2)
               | None =>
                   r ← StdioClient.wait (VString s) sched r.2;
                   Done (k r.1, r.2)
               end) = Done cl'
              ∧ StdioClient.stoppable cl'.2) as Hcall.
  { intros s sched msg A k e Hid Hsched Hconn.
    unfold StdioClient.IsConnected in Hconn.
    destruct (StdioClient.conn cl) as [c|] eqn:Hc; [|done].
    destruct (client_send msg s cl c Hc Hid) as (err & c1 & -> & H1 & H2).
    simpl. destruct err as [err|]; simpl.
    { eexists. split; [reflexivity|]. simpl. by apply (Hkeep c). }
    destruct (client_wait s sched (StdioClient.mk (StdioClient.writer cl) (Some c1))
                c1 eq_refl Hsched) as (r & c2 & -> & H3 & H4).
    simpl. eexists. split; [reflexivity|]. simpl.
    apply (Hkeep c); congruence. }
  destruct o as [| | |calls|sched|now name arguments sched|now uri sched]; simpl.
  - eexists. split; [reflexivity|]. done.
  - destruct (client_Disconnect cl Hinv) as (cl' & -> & ? & _). simpl. eauto.
  - unfold StdioClient.Initialize.
    destruct (StdioClient.IsConnected cl) eqn:Hconn; simpl; [|eauto].
    unfold StdioClient.IsConnected in Hconn.
    destruct (StdioClient.conn cl) as [c|] eqn:Hc; [|done].
    match goal with
    | |- context [StdioClient.send ?m cl] =>
        destruct (client_send m "init-1" cl c Hc eq_refl) as (err & c1 & -> & H1 & H2)
    end.
    simpl. eexists. split; [reflexivity|]. by apply (Hkeep c).
  - unfold StdioClient.Shutdown.
    destruct (StdioClient.IsConnected cl) eqn:Hconn; simpl; [|eauto].
    unfold StdioClient.IsConnected in Hconn.
    destruct (StdioClient.conn cl) as [c|] eqn:Hc; [|done].
    match goal with
    | |- context [StdioClient.send ?m cl] =>
        destruct (client_send m "shutdown-1" cl c Hc eq_refl)
          as (err & c1 & -> & H1 & H2)
    end.
    simpl. destruct err as [err|]; simpl.
    { eexists. split; [reflexivity|]. by apply (Hkeep c). }
    unfold StdioClient.others. simpl.
    destruct (run_from_loops calls c1 Hloops) as (c2 & -> & H3 & H4). simpl.
    destruct (client_Disconnect (StdioClient.mk (StdioClient.writer cl) (Some c2)))
      as (cl' & -> & ? & _); [apply (Hkeep c); congruence|].
    simpl. eauto.
  - unfold StdioClient.ListTools.
    destruct (StdioClient.IsConnected cl) eqn:Hconn; simpl; [|eauto].
    match goal with
    | |- context [StdioClient.send ?m cl] =>
        destruct (Hcall "tools-1" sched m unit (λ _, tt) (λ _, tt) eq_refl Hloops
                    eq_refl) as (cl' & Hrun & Hs)
    end.
    revert Hrun Hs.
    destruct (StdioClient.send _ cl) as [[[err|] cl1]|]; simpl; [| |done].
    { intros [= <-]. simpl. eauto. }
    destruct (StdioClient.wait _ sched cl1) as [[[response|] cl2]|]; simpl;
      [| |done].
    + intros [= <-]. simpl. intros Hs.
      destruct (Error response); simpl; [eauto|].
      destruct (is_nil (Result response)); simpl; [eauto|].
      destruct (DecodeTools (Result response)); simpl; eauto.
    + intros [= <-]. simpl. eauto.
  - unfold StdioClient.CallTool.
    destruct (StdioClient.IsConnected cl) eqn:Hconn; simpl; [|eauto].
    match goal with
    | |- context [StdioClient.send ?m cl] =>
        destruct (Hcall ("call-" ++ StdioClient.FormatInt now) sched m unit
                    (λ _, tt) (λ _, tt) eq_refl Hloops eq_refl)
          as (cl' & Hrun & Hs)
    end.
    revert Hrun Hs.
    destruct (StdioClient.send _ cl) as [[[err|] cl1]|]; simpl; [| |done].
    { intros [= <-]. simpl. eauto. }
    destruct (StdioClient.wait _ sched cl1) as [[[response|] cl2]|]; simpl;
      [| |done].
    + intros [= <-]. simpl. intros Hs.
      destruct (Error response); simpl; [eauto|].
      destruct (is_nil (Result response)); simpl; [eauto|].
      destruct (DecodeToolCallResult (Result response)); simpl; eauto.
    + intros [= <-]. simpl. eauto.
  - unfold StdioClient.ReadResource.
    destruct (StdioClient.IsConnected cl) eqn:Hconn; simpl; [|eauto].
    match goal with
    | |- context [StdioClient.send ?m cl] =>
        destruct (Hcall ("read-" ++ StdioClient.FormatInt now) sched m unit
                    (λ _, tt) (λ _, tt) eq_refl Hloops eq_refl)
          as (cl' & Hrun & Hs)
    end.
    revert Hrun Hs.
    destruct (StdioClient.send _ cl) as [[[err|] cl1]|]; simpl; [| |done].
    { intros [= <-]. simpl. eauto. }
    destruct (StdioClient.wait _ sched cl1) as [[[response|] cl2]|]; simpl;
      [| |done].
    + intros [= <-]. simpl. intros Hs.
      destruct (Error response); simpl; [eauto|].
      destruct (is_nil (Result response)); simpl; [eauto|].
      destruct (DecodeResourceReadResult (Result response)); simpl; eauto.
    + intros [= <-]. simpl. eauto.
Qed.

(** X28: no use of the client by its owner panics.  Every [Connect] builds a
    new connection, so the stop channel that [Disconnect] and [Shutdown]
    close is never closed twice, and the ids the client puts into its
    requests are strings, so registering and cleaning them never fails: any
    sequence of [Connect], [Disconnect], [Initialize], [Shutdown],
    [ListTools], [CallTool] and [ReadResource] returns, provided the loops
    hand [handleResponse] no response whose id is a slice or a map.
    [Connect] itself always succeeds, leaves the client connected and starts
    with an empty pending table; [Disconnect] leaves it not connected. *)
Theorem client_never_panics (w : Writer) (ops : list StdioClient.op) :
  Forall StdioClient.op_from_loops ops →
  (∃ cl,
     StdioClient.run MarshalInitializeParams MarshalToolCallParams
       MarshalResourceReadParams DecodeTools DecodeToolCallResult
       DecodeResourceReadResult ops (StdioClient.NewStdioClient w) = Done cl
     ∧ StdioClient.stoppable cl
     ∧ ∃ cl', StdioClient.Disconnect cl = Done (None, cl')
              ∧ StdioClient.IsConnected cl' = false)
  ∧ ∀ cl, ∃ c,
      StdioClient.Connect cl = (None, StdioClient.mk (StdioClient.writer cl) (Some c))
      ∧ StdioClient.IsConnected (StdioClient.Connect cl).2 = true
      ∧ stdioConnection.responses c = ∅
      ∧ stdioConnection.writer c = StdioClient.stream cl.
Proof.
  intros Hops. split.
  - assert (∀ cl0, StdioClient.stoppable cl0 →
                   ∃ cl,
                     StdioClient.run MarshalInitializeParams
                       MarshalToolCallParams MarshalResourceReadParams
                       DecodeTools DecodeToolCallResult
                       DecodeResourceReadResult ops cl0 = Done cl
                     ∧ StdioClient.stoppable cl) as Hrun.
    { induction Hops as [|o ops Ho _ IH]; intros cl0 Hinv; simpl; [eauto|].
      destruct (exec_stoppable o cl0 Ho Hinv) as (cl1 & -> & Hinv1). simpl.
      by apply IH. }
    destruct (Hrun (StdioClient.NewStdioClient w)) as (cl & Hcl & Hinv); [done|].
    exists cl. split; [done|]. split; [done|].
    destruct (client_Disconnect cl Hinv) as (cl' & ? & _ & ?). eauto.
  - intros cl. eexists. split; [reflexivity|]. simpl. done.
Qed.

End client.

Lemma client_without_connection_witness :
  StdioClient.run Scenarios.marshal Scenarios.marshal Scenarios.marshal
    Scenarios.decodeTools Scenarios.decodeToolCallResult
    Scenarios.decodeResourceReadResult
    [StdioClient.OpInitialize; StdioClient.OpListTools [Examples.idle];
     StdioClient.OpShutdown []; StdioClient.OpDisconnect]
    (StdioClient.NewStdioClient Examples.stdout)
  = Done (StdioClient.NewStdioClient Examples.stdout).
Proof.
  destruct (client_without_connection Scenarios.marshal Scenarios.marshal
              Scenarios.marshal Scenarios.decodeTools
              Scenarios.decodeToolCallResult Scenarios.decodeResourceReadResult
              (StdioClient.NewStdioClient Examples.stdout)) as [Hoff _].
  destruct (Hoff eq_refl) as [Hrun _]. apply Hrun.
  rewrite !not_elem_of_cons. repeat split; try discriminate.
  apply not_elem_of_nil.
Defined.

Lemma ListTools_outcomes_witness :
  ∃ c',
    StdioClient.ListTools Scenarios.decodeTools
      [stdioConnection.mkSlot []
         [stdioConnection.CallHandleResponse Scenarios.toolsResponse];
       Examples.idle]
      (StdioClient.Connect (StdioClient.NewStdioClient Examples.stdout)).2
    = Done (([Examples.tool "hash"], None),
            StdioClient.mk Examples.stdout (Some c')).
Proof.
  destruct (ListTools_outcomes Scenarios.decodeTools
              (StdioClient.Connect (StdioClient.NewStdioClient Examples.stdout)).2
              (stdioConnection.mk Examples.stdout true ∅ false))
    as [_ Harrives]; [reflexivity..|].
  destruct (Harrives Scenarios.toolsResponse [] eq_refl eq_refl)
    as (c' & Hlist & _).
  exists c'. exact Hlist.
Defined.

Lemma client_never_panics_witness :
  ∃ cl,
    StdioClient.run Scenarios.marshal Scenarios.marshal Scenarios.marshal
      Scenarios.decodeTools Scenarios.decodeToolCallResult
      Scenarios.decodeResourceReadResult
      [StdioClient.OpConnect; StdioClient.OpInitialize;
       StdioClient.OpListTools
         [stdioConnection.mkSlot []
            [stdioConnection.CallHandleResponse Scenarios.toolsResponse];
          Examples.idle];
       StdioClient.OpShutdown []; StdioClient.OpDisconnect;
       StdioClient.OpConnect]
      (StdioClient.NewStdioClient Examples.stdout) = Done cl
    ∧ StdioClient.stoppable cl.
Proof.
  destruct (client_never_panics Scenarios.marshal Scenarios.marshal
              Scenarios.marshal Scenarios.decodeTools
              Scenarios.decodeToolCallResult Scenarios.decodeResourceReadResult
              Examples.stdout
              [StdioClient.OpConnect; StdioClient.OpInitialize;
               StdioClient.OpListTools
                 [stdioConnection.mkSlot []
                    [stdioConnection.CallHandleResponse Scenarios.toolsResponse];
                  Examples.idle];
               StdioClient.OpShutdown []; StdioClient.OpDisconnect;
               StdioClient.OpConnect])
    as [(cl & Hrun & Hinv & _) _].
  - repeat constructor.
    + intros cl [->|Hin]%elem_of_cons.
      * exists Scenarios.toolsResponse. split; [reflexivity|]. discriminate.
      * by apply not_elem_of_nil in Hin.
    + intros cl Hin. by apply not_elem_of_nil in Hin.
  - exists cl. split; [exact Hrun | exact Hinv].
Defined.
